(** * Viha return-gift bot: requirement extraction and dialogue controller

    A shallow embedding of [python_service/complete_bot.py].

    Text is modelled as a list of bytes ([ascii]) holding the UTF-8 encoding
    of the Python string.  Character classes ([\d], [\w], [\s], [isdigit],
    [isalpha], [isupper], [lower]) are the ASCII ones; every byte above 127
    (in particular the three bytes of the rupee sign) is an opaque symbol:
    not a digit, not a word character, not white space, and fixed by
    [lower].  Python's [len] counts code points, see [py_len]. *)

From Stdlib Require Import String Ascii List ZArith Bool Lia Arith.
From Stdlib Require Import Floats Uint63 DecimalString.
Import ListNotations.

Set Implicit Arguments.

(** ** Python strings *)

Module PyStr.

Definition str := list ascii.

Definition s2l (s : string) : str := list_ascii_of_string s.

Definition nl : ascii := ascii_of_nat 10.

Definition code (c : ascii) : nat := nat_of_ascii c.

Definition between (lo hi : nat) (c : ascii) : bool :=
  (lo <=? code c) && (code c <=? hi).

Definition is_digit (c : ascii) : bool := between 48 57 c.
Definition is_upper (c : ascii) : bool := between 65 90 c.
Definition is_lower (c : ascii) : bool := between 97 122 c.
Definition is_alpha (c : ascii) : bool := is_upper c || is_lower c.
Definition is_word (c : ascii) : bool :=
  is_alpha c || is_digit c || (code c =? 95).

(** [str.isspace] on one character: TAB, LF, VT, FF, CR, the four
    separators FS, GS, RS, US, and the blank. *)
Definition is_space (c : ascii) : bool :=
  between 9 13 c || between 28 31 c || (code c =? 32).

Definition lower_char (c : ascii) : ascii :=
  if is_upper c then ascii_of_nat (code c + 32) else c.

Definition upper_char (c : ascii) : ascii :=
  if is_lower c then ascii_of_nat (code c - 32) else c.

Definition lower (s : str) : str := map lower_char s.

Definition str_eqb (a b : str) : bool :=
  if list_eq_dec ascii_dec a b then true else false.

Fixpoint starts_with (p s : str) : bool :=
  match p, s with
  | [], _ => true
  | a :: p', b :: s' => Ascii.eqb a b && starts_with p' s'
  | _ :: _, [] => false
  end.

(** [p in s] *)
Fixpoint contains (p s : str) : bool :=
  starts_with p s ||
  match s with
  | [] => false
  | _ :: s' => contains p s'
  end.

Fixpoint lstrip (s : str) : str :=
  match s with
  | c :: s' => if is_space c then lstrip s' else s
  | [] => []
  end.

Definition rstrip (s : str) : str := rev (lstrip (rev s)).

Definition strip (s : str) : str := rstrip (lstrip s).

(** [s.isdigit()], [s.isalpha()]: every character in the class and at
    least one character. *)
Definition isdigit (s : str) : bool :=
  negb (Nat.eqb (length s) 0) && forallb is_digit s.

Definition isalpha (s : str) : bool :=
  negb (Nat.eqb (length s) 0) && forallb is_alpha s.

(** [s.split()]: maximal runs of characters that are not white space. *)
Fixpoint split_ws_aux (cur : str) (s : str) : list str :=
  match s with
  | [] => match cur with [] => [] | _ => [rev cur] end
  | c :: s' =>
      if is_space c
      then match cur with
           | [] => split_ws_aux [] s'
           | _ => rev cur :: split_ws_aux [] s'
           end
      else split_ws_aux (c :: cur) s'
  end.

Definition split_ws (s : str) : list str := split_ws_aux [] s.

(** [s.title()] *)
Fixpoint title_aux (inword : bool) (s : str) : str :=
  match s with
  | [] => []
  | c :: s' =>
      (if inword then lower_char c else upper_char c)
        :: title_aux (is_alpha c) s'
  end.

Definition title (s : str) : str := title_aux false s.

(** [len(s)]: the number of code points, that is of bytes that are not
    UTF-8 continuation bytes. *)
Definition py_len (s : str) : nat :=
  length (filter (fun c => negb (between 128 191 c)) s).

Definition digit_val (c : ascii) : Z := Z.of_nat (code c - 48).

(** [int(s)] on a string of decimal digits *)
Definition int_of_digits (s : str) : Z :=
  fold_left (fun acc c => 10 * acc + digit_val c)%Z s 0%Z.

Definition slice (s : str) (i j : nat) : str := firstn (j - i) (skipn i s).

End PyStr.

Import PyStr.

(** ** The fragment of Python's [re] the bot uses

    A backtracking matcher with Python's priorities: alternatives are tried
    left to right, repetitions are greedy, and the first way that lets the
    rest of the pattern match wins.  Every repetition in the bot's patterns
    is over a single character class, hence [Star] takes a class. *)

Module Re.

Inductive regex : Type :=
| Eps
| Cls (p : ascii -> bool)
| Lit (l : str)
| Seq (r1 r2 : regex)
| Alt (r1 r2 : regex)
| Star (p : ascii -> bool)
| Opt (r : regex)
| Grp (n : nat) (r : regex)
| Bnd.

(** group number, start, end *)
Definition caps := list (nat * (nat * nat)).

Section Matcher.

Variable A : Type.

Definition kont := option ascii -> nat -> str -> caps -> option A.

Fixpoint star_m (p : ascii -> bool)
    (k : option ascii -> nat -> str -> option A)
    (pv : option ascii) (i : nat) (s : str) : option A :=
  match s with
  | a :: s' =>
      if p a
      then match star_m p k (Some a) (S i) s' with
           | Some x => Some x
           | None => k pv i s
           end
      else k pv i s
  | [] => k pv i s
  end.

Definition word_before (pv : option ascii) : bool :=
  match pv with Some c => is_word c | None => false end.

Definition word_after (s : str) : bool :=
  match s with c :: _ => is_word c | [] => false end.

Fixpoint m (r : regex) (pv : option ascii) (i : nat) (s : str) (cs : caps)
    (k : kont) : option A :=
  match r with
  | Eps => k pv i s cs
  | Cls p =>
      match s with
      | a :: s' => if p a then k (Some a) (S i) s' cs else None
      | [] => None
      end
  | Lit l =>
      if starts_with l s
      then k (last (map Some l) pv) (i + length l) (skipn (length l) s) cs
      else None
  | Seq r1 r2 => m r1 pv i s cs (fun pv' i' s' cs' => m r2 pv' i' s' cs' k)
  | Alt r1 r2 =>
      match m r1 pv i s cs k with
      | Some x => Some x
      | None => m r2 pv i s cs k
      end
  | Star p => star_m p (fun pv' i' s' => k pv' i' s' cs) pv i s
  | Opt r1 =>
      match m r1 pv i s cs k with
      | Some x => Some x
      | None => k pv i s cs
      end
  | Grp n r1 =>
      m r1 pv i s cs (fun pv' i' s' cs' => k pv' i' s' ((n, (i, i')) :: cs'))
  | Bnd =>
      if xorb (word_before pv) (word_after s) then k pv i s cs else None
  end.

End Matcher.

(** A match: start, end, captured groups. *)
Record rmatch := { m_start : nat; m_end : nat; m_caps : caps }.

Definition match_at (r : regex) (pv : option ascii) (i : nat) (s : str)
  : option rmatch :=
  m r pv i s [] (fun _ e _ cs => Some {| m_start := i; m_end := e; m_caps := cs |}).

Fixpoint search_from (r : regex) (pv : option ascii) (i : nat) (s : str)
  : option rmatch :=
  match match_at r pv i s with
  | Some x => Some x
  | None =>
      match s with
      | a :: s' => search_from r (Some a) (S i) s'
      | [] => None
      end
  end.

(** [re.search(r, s)] *)
Definition search (r : regex) (s : str) : option rmatch :=
  search_from r None 0 s.

(** [re.finditer(r, s)]: successive matches that do not overlap.  [skip]
    counts the characters of the previous match still to be passed.  (None of
    the bot's patterns matches the empty string.) *)
Fixpoint finditer_from (r : regex) (pv : option ascii) (i : nat) (s : str)
    (skip : nat) : list rmatch :=
  match s with
  | [] =>
      match skip with
      | O => match match_at r pv i [] with Some x => [x] | None => [] end
      | S _ => []
      end
  | a :: s' =>
      match skip with
      | S k => finditer_from r (Some a) (S i) s' k
      | O =>
          match match_at r pv i s with
          | Some x => x :: finditer_from r (Some a) (S i) s' (m_end x - i - 1)
          | None => finditer_from r (Some a) (S i) s' 0
          end
      end
  end.

Definition finditer (r : regex) (s : str) : list rmatch :=
  finditer_from r None 0 s 0.

(** [match.group(0)] and [match.group(n)] *)
Definition group0 (s : str) (x : rmatch) : str :=
  slice s (m_start x) (m_end x).

Fixpoint cap_lookup (n : nat) (cs : caps) : option (nat * nat) :=
  match cs with
  | [] => None
  | (g, se) :: cs' => if Nat.eqb g n then Some se else cap_lookup n cs'
  end.

Definition group (s : str) (x : rmatch) (n : nat) : option str :=
  match cap_lookup n (m_caps x) with
  | Some (a, b) => Some (slice s a b)
  | None => None
  end.


(** Pattern combinators *)
Definition lit (s : string) : regex := Lit (s2l s).

Fixpoint alts (l : list string) : regex :=
  match l with
  | [] => Cls (fun _ => false)
  | [a] => lit a
  | a :: l' => Alt (lit a) (alts l')
  end.

Fixpoint seqs (l : list regex) : regex :=
  match l with
  | [] => Eps
  | [r] => r
  | r :: l' => Seq r (seqs l')
  end.

Definition d : regex := Cls is_digit.
Definition d_plus : regex := Seq d (Star is_digit).
Definition d_1_2 : regex := Seq d (Opt d).
Definition d_2_4 : regex := Seq d (Seq d (Opt (Seq d (Opt d)))).
Definition ws_star : regex := Star is_space.
Definition ws_plus : regex := Seq (Cls is_space) (Star is_space).
Definition w_star : regex := Star is_word.

End Re.

Import Re.

(** ** Structured outputs *)

Record ExtractedRequirements : Type := {
  quantity : option Z;
  budget_per_piece : option Z;
  timeline : option str;
  location : option str;
  preferences : list str;
  needs_confirmation : bool
}.

(** ** Tool: [extract_customer_requirements] *)

Module Extract.

Definition number_token : regex := seqs [Bnd; Grp 1 d_plus; Bnd].

(** [re.findall(r'\b(\d+)\b', message)] *)
Definition all_numbers (message : str) : list str :=
  flat_map (fun x => match group message x 1 with Some g => [g] | None => [] end)
           (finditer number_token message).

Definition timeline_map : list (string * string) :=
  [ ("asap", "asap"); ("urgent", "asap"); ("immediately", "asap");
    ("today", "today"); ("tomorrow", "tomorrow");
    ("next week", "next_week"); ("this week", "this_week");
    ("2 weeks", "two_weeks"); ("month", "one_month") ]%string.

Fixpoint timeline_keyword (tm : list (string * string)) (msg_lower : str)
  : option str :=
  match tm with
  | [] => None
  | (keyword, value) :: tm' =>
      if contains (s2l keyword) msg_lower then Some (s2l value)
      else timeline_keyword tm' msg_lower
  end.

Definition months : regex :=
  alts [ "jan"; "feb"; "mar"; "apr"; "may"; "jun";
         "jul"; "aug"; "sep"; "oct"; "nov"; "dec" ]%string.

Definition date_sep : regex :=
  Cls (fun c => existsb (Ascii.eqb c) (s2l "/-.")).

(** The four date patterns, each with its number of groups. *)
Definition date_patterns : list (regex * nat) :=
  [ (seqs [Grp 1 months; w_star; ws_star; Grp 2 d_1_2], 2);
    (seqs [Grp 1 d_1_2; ws_star; Grp 2 months], 2);
    (seqs [Grp 1 d_1_2; date_sep; Grp 2 d_1_2; date_sep; Grp 3 d_2_4], 3);
    (seqs [Grp 1 d_1_2; date_sep; Grp 2 d_1_2], 2) ].

Definition mem (x : str) (l : list str) : bool := existsb (str_eqb x) l.

Definition set_add (x : str) (l : list str) : list str :=
  if mem x l then l else l ++ [x].

(** The body of [for match in matches]: the matched text becomes the
    timeline and the numeric groups join [date_numbers]. *)
Definition date_match_step (msg_lower : str) (ngroups : nat)
    (acc : option str * list str) (x : rmatch) : option str * list str :=
  (Some (group0 msg_lower x),
   fold_left
     (fun dn g =>
        match group msg_lower x g with
        | Some num => if isdigit num then set_add num dn else dn
        | None => dn
        end)
     (seq 1 ngroups) (snd acc)).

Definition date_pattern_step (msg_lower : str)
    (acc : option str * list str) (pn : regex * nat) : option str * list str :=
  fold_left (date_match_step msg_lower (snd pn)) (finditer (fst pn) msg_lower) acc.

(** STEP 1: the timeline and the set [date_numbers] *)
Definition step_timeline (msg_lower : str) : option str * list str :=
  fold_left (date_pattern_step msg_lower) date_patterns
            (timeline_keyword timeline_map msg_lower, []).

(** Every match of every date pattern, in the order the two loops visit
    them. *)
Definition date_matches (msg_lower : str) : list rmatch :=
  flat_map (fun pn => finditer (fst pn) msg_lower) date_patterns.

Definition qty_patterns : list regex :=
  [ seqs [Grp 1 d_plus; ws_star;
          alts ["pieces"; "pcs"; "piece"; "family"; "families"; "people"]%string];
    seqs [alts ["quantity"; "qty"; "need"; "want"; "for"]%string;
          ws_star; Opt (lit ":"); ws_star; Grp 1 d_plus] ].

Definition rupee : regex := lit "₹".

Definition budget_patterns : list regex :=
  [ seqs [alts ["budget"; "price"]%string; ws_star; Opt (lit ":"); ws_star;
          Grp 1 d_plus];
    seqs [Grp 1 d_plus; ws_star;
          Alt (lit "rupees") (Alt (lit "rs") (Alt rupee
            (seqs [lit "per"; ws_star; lit "piece"])))];
    seqs [rupee; ws_star; Grp 1 d_plus];
    seqs [Grp 1 d_plus; ws_star; lit "rs"; Bnd];
    seqs [lit "under"; ws_plus; Grp 1 d_plus];
    seqs [lit "below"; ws_plus; Grp 1 d_plus];
    seqs [lit "within"; ws_plus; Grp 1 d_plus];
    seqs [lit "upto"; ws_plus; Grp 1 d_plus] ].

(** [for pattern in patterns: match = re.search(...); if match: ... break]:
    group 1 of the first pattern that matches, as an integer.  Group 1 takes
    part in every match of the patterns below ([keyword_group_present]), so
    the branch without it is never taken. *)
Fixpoint first_keyword_match (ps : list regex) (msg_lower : str) : option Z :=
  match ps with
  | [] => None
  | p :: ps' =>
      match search p msg_lower with
      | Some x =>
          match group msg_lower x 1 with
          | Some g => Some (int_of_digits g)
          | None => Some 0%Z
          end
      | None => first_keyword_match ps' msg_lower
      end
  end.

(** STEP 2 and STEP 3 *)
Definition keyword_quantity (msg_lower : str) : option Z :=
  first_keyword_match qty_patterns msg_lower.

Definition keyword_budget (msg_lower : str) : option Z :=
  first_keyword_match budget_patterns msg_lower.

(** STEP 4: the numbers whose text is not in [date_numbers] *)
Definition non_date_numbers (message : str) (date_numbers : list str) : list Z :=
  map int_of_digits (filter (fun num => negb (mem num date_numbers))
                            (all_numbers message)).

Definition is_none {T} (o : option T) : bool :=
  match o with None => true | Some _ => false end.

Definition step_position (nums : list Z) (qb : option Z * option Z)
  : option Z * option Z :=
  let (q, b) := qb in
  if is_none q || is_none b then
    match nums with
    | n0 :: n1 :: _ =>
        let q' := match q with None => Some n0 | Some _ => q end in
        let b' := match b with None => Some n1 | Some _ => b end in
        (q', b')
    | [num] =>
        match q with
        | None => (Some num, b)
        | Some _ => match b with None => (q, Some num) | Some _ => (q, b) end
        end
    | [] => (q, b)
    end
  else (q, b).

(** STEP 5 *)
Definition known_cities : list string :=
  [ "chennai"; "bangalore"; "bengaluru"; "coimbatore"; "madurai";
    "hyderabad"; "kochi"; "mumbai"; "delhi"; "pune"; "mysore";
    "trivandrum"; "vijayawada"; "erode"; "salem"; "tiruppur";
    "guntur"; "vizag"; "tirunelveli"; "thanjavur"; "trichy";
    "komarapalayam"; "karur"; "dindigul"; "vellore"; "hosur" ]%string.

Definition city_display (city : string) : str :=
  if String.eqb city "bengaluru" then s2l "Bangalore"
  else if String.eqb city "tiruchirappalli" then s2l "Trichy"
  else if String.eqb city "visakhapatnam" then s2l "Vizag"
  else title (s2l city).

Fixpoint city_lookup (cities : list string) (msg_lower : str) : option str :=
  match cities with
  | [] => None
  | city :: cities' =>
      if contains (s2l city) msg_lower then Some (city_display city)
      else city_lookup cities' msg_lower
  end.

Definition skip_words : list str :=
  map s2l ["hello"; "hi"; "what"; "when"; "where"]%string.

Fixpoint first_place_word (words : list str) : option str :=
  match words with
  | [] => None
  | word :: words' =>
      let word_clean := strip word in
      if (3 <? py_len word_clean)
         && match word_clean with c :: _ => is_upper c | [] => false end
         && isalpha word_clean
         && negb (mem (lower word_clean) skip_words)
      then Some word_clean
      else first_place_word words'
  end.

Definition is_empty_opt (o : option str) : bool :=
  match o with None => true | Some [] => true | Some _ => false end.

Definition step_location (message msg_lower : str) : option str :=
  let loc := city_lookup known_cities msg_lower in
  if is_empty_opt loc then
    let words := split_ws (strip message) in
    if length words <=? 3 then
      match first_place_word words with
      | Some w => Some w
      | None => loc
      end
    else loc
  else loc.

(** STEP 6 *)
Definition step_preferences (msg_lower : str) : list str :=
  let has (w : string) := contains (s2l w) msg_lower in
  (if has "eco"%string || has "green"%string
   then [s2l "eco_friendly"] else [])
  ++ (if has "traditional"%string || has "ethnic"%string
      then [s2l "traditional"] else [])
  ++ (if has "modern"%string || has "contemporary"%string
      then [s2l "modern"] else [])
  ++ (if has "premium"%string || has "luxury"%string
      then [s2l "premium"] else []).

Definition extract_customer_requirements (message : str)
  : ExtractedRequirements :=
  let msg_lower := lower message in
  let (tl, date_numbers) := step_timeline msg_lower in
  let kq := keyword_quantity msg_lower in
  let qty_used_keyword := negb (is_none kq) in
  let kb := keyword_budget msg_lower in
  let budget_used_keyword := negb (is_none kb) in
  let (q, b) := step_position (non_date_numbers message date_numbers) (kq, kb) in
  {| quantity := q;
     budget_per_piece := b;
     timeline := tl;
     location := step_location message msg_lower;
     preferences := step_preferences msg_lower;
     needs_confirmation :=
       negb (is_none q) && negb (is_none b)
       && negb qty_used_keyword && negb budget_used_keyword |}.

End Extract.

Import Extract.

(** ** Exceptions

    A Python call that may raise is a value of [option]: [None] is the
    raised exception. *)

Definition raises (A : Type) : Type := option A.

Definition bind {A B : Type} (c : raises A) (f : A -> raises B) : raises B :=
  match c with
  | Some a => f a
  | None => None
  end.

Declare Scope raises_scope.
Delimit Scope raises_scope with raises.
Notation "x <- c ;; k" := (bind c (fun x => k))
  (at level 61, c at next level, right associativity) : raises_scope.

(** [try: body except: handler] *)
Definition try_except {A : Type} (body : raises A) (handler : A) : A :=
  match body with
  | Some a => a
  | None => handler
  end.

(** ** Tool: [calculate_timeline_urgency] *)

Inductive Urgency : Type := low | medium | high | critical.

(** What the tool uses of [datetime] and of [dateutil.parser]; both are
    libraries outside the repository.  [parse t d] is
    [parser.parse(t, fuzzy=True, default=d)] and [replace_year] is
    [d.replace(year=y)]; each is [None] when the call raises. *)
Record Clock : Type := {
  datetime : Type;
  now : datetime;
  parse : str -> datetime -> raises datetime;
  dt_ltb : datetime -> datetime -> bool;
  dt_year : datetime -> Z;
  replace_year : datetime -> Z -> raises datetime;
  sub_days : datetime -> datetime -> Z;
  add_days : datetime -> Z -> datetime;
  strftime : datetime -> str
}.

Module Timeline.

Record result : Type := {
  delivery_date : str;
  days_remaining : Z;
  urgency_level : Urgency;
  is_rush_order : bool
}.

Definition timeline_config : list (string * (Z * Urgency)) :=
  [ ("asap", (1, critical)); ("today", (0, critical));
    ("tomorrow", (1, high)); ("this_week", (5, medium));
    ("next_week", (7, medium)); ("two_weeks", (14, low));
    ("one_month", (30, low)) ]%string%Z.

Fixpoint config_lookup (cfg : list (string * (Z * Urgency))) (key : str)
  : option (Z * Urgency) :=
  match cfg with
  | [] => None
  | (k, v) :: cfg' =>
      if str_eqb (s2l k) key then Some v else config_lookup cfg' key
  end.

Definition urgency_of_days (days_remaining : Z) : Urgency :=
  if (days_remaining <=? 2)%Z then critical
  else if (days_remaining <=? 7)%Z then high
  else if (days_remaining <=? 14)%Z then medium
  else low.

Section Tool.

Variable C : Clock.

(** The body of the [try] block. *)
Definition parse_branch (today : datetime C) (timeline : str)
  : raises (datetime C * Z * Urgency) :=
  (default <- replace_year C today (dt_year C today) ;;
   parsed_date <- parse C timeline default ;;
   parsed_date <- (if dt_ltb C parsed_date today
                   then replace_year C parsed_date (dt_year C today + 1)
                   else Some parsed_date) ;;
   let days_remaining := sub_days C parsed_date today in
   Some (parsed_date, days_remaining, urgency_of_days days_remaining))%raises.

Definition calculate_timeline_urgency (timeline : str) : result :=
  let today := now C in
  let '(delivery_date, days_remaining, urgency) :=
    match config_lookup timeline_config (lower timeline) with
    | Some (days, urgency) => (add_days C today days, days, urgency)
    | None =>
        try_except (parse_branch today timeline)
                   (add_days C today 7, 7%Z, medium)
    end in
  {| delivery_date := strftime C delivery_date;
     days_remaining := days_remaining;
     urgency_level := urgency;
     is_rush_order :=
       match urgency with critical | high => true | _ => false end |}.

End Tool.

End Timeline.

(** What the [except] branch of the tool amounts to. *)
Definition default_timeline (C : Clock) : Timeline.result :=
  {| Timeline.delivery_date := strftime C (add_days C (now C) 7);
     Timeline.days_remaining := 7;
     Timeline.urgency_level := medium;
     Timeline.is_rush_order := false |}.

(** ** Tool: [search_matching_products] *)

Module Products.

(** A row of the query: [p.id, p.name, p.category, p.image_url,
    p.min_order, pt.quantity_range, pt.price_per_piece].  Both
    [min_order] and [price_per_piece] are INTEGER columns. *)
Record row : Type := {
  r_product_id : Z;
  r_name : str;
  r_category : str;
  r_image_url : str;
  r_min_order : Z;
  r_qty_range : str;
  r_price : Z
}.

Record tier : Type := { quantity_range : str; price_per_piece : Z }.

Record product : Type := {
  id : Z;
  p_name : str;
  p_category : str;
  p_image_url : str;
  p_min_order : Z;
  pricing : list tier
}.

(** An entry of the returned list. *)
Record found : Type := {
  name : str;
  price : Z;
  category : str;
  min_order : Z;
  image_url : str;
  relevance_score : Z
}.

(** [int(s)]: white space around, an optional sign, decimal digits with
    single underscores between them; [None] is ValueError. *)
Fixpoint digits_us (after_digit : bool) (acc : Z) (s : str) : raises Z :=
  match s with
  | [] => if after_digit then Some acc else None
  | c :: s' =>
      if is_digit c then digits_us true (10 * acc + digit_val c)%Z s'
      else if (code c =? 95) && after_digit
           then match s' with
                | c' :: _ => if is_digit c' then digits_us false acc s' else None
                | [] => None
                end
           else None
  end.

Definition py_int (s : str) : raises Z :=
  match strip s with
  | c :: s' =>
      if code c =? 45 then option_map Z.opp (digits_us false 0%Z s')
      else if code c =? 43 then digits_us false 0%Z s'
      else digits_us false 0%Z (c :: s')
  | [] => None
  end.

(** [s.split(sep)] for a separator of one character *)
Fixpoint split_on_aux (sep : ascii) (cur : str) (s : str) : list str :=
  match s with
  | [] => [rev cur]
  | c :: s' =>
      if Ascii.eqb c sep then rev cur :: split_on_aux sep [] s'
      else split_on_aux sep (c :: cur) s'
  end.

Definition split_on (sep : ascii) (s : str) : list str := split_on_aux sep [] s.

Definition plus_sign : ascii := ascii_of_nat 43.
Definition minus_sign : ascii := ascii_of_nat 45.

(** Group the rows by product, in order of first appearance. *)
Fixpoint add_row (r : row) (ps : list product) : list product :=
  let t := {| quantity_range := r_qty_range r; price_per_piece := r_price r |} in
  match ps with
  | [] =>
      [ {| id := r_product_id r; p_name := r_name r; p_category := r_category r;
           p_image_url := r_image_url r; p_min_order := r_min_order r;
           pricing := [t] |} ]
  | p :: ps' =>
      if (id p =? r_product_id r)%Z
      then {| id := id p; p_name := p_name p; p_category := p_category p;
              p_image_url := p_image_url p; p_min_order := p_min_order p;
              pricing := pricing p ++ [t] |} :: ps'
      else p :: add_row r ps'
  end.

Definition group_rows (rows : list row) : list product :=
  fold_left (fun ps r => add_row r ps) rows [].

(** The loop over the tiers of one product. *)
Fixpoint applicable_price (budget_max quantity : Z) (tiers : list tier)
    (current : option Z) : raises (option Z) :=
  match tiers with
  | [] => Some current
  | t :: tiers' =>
      let qr := quantity_range t in
      if existsb (Ascii.eqb plus_sign) qr then
        (min_qty <- py_int (strip (hd [] (split_on plus_sign qr))) ;;
         applicable_price budget_max quantity tiers'
           (if (min_qty <=? quantity)%Z then Some (price_per_piece t)
            else current))%raises
      else if existsb (Ascii.eqb minus_sign) qr then
        (let parts := split_on minus_sign qr in
         min_qty <- py_int (strip (nth 0 parts [])) ;;
         word <- nth_error (split_ws (nth 1 parts [])) 0 ;;
         max_qty <- py_int (strip word) ;;
         if (min_qty <=? quantity)%Z && (quantity <=? max_qty)%Z
         then Some (Some (price_per_piece t))
         else applicable_price budget_max quantity tiers' current)%raises
      else
        applicable_price budget_max quantity tiers'
          (if (price_per_piece t <=? budget_max)%Z
           then Some (price_per_piece t) else current)
  end.

(** Floats: [a / b] on integers, and [int(f)].  Binary64, as Python's
    [float]; the conversion of an integer is exact below 2^53. *)
Definition float_of_Z (z : Z) : float :=
  let a := PrimFloat.of_uint63 (Uint63.of_Z (Z.abs z)) in
  if (z <? 0)%Z then PrimFloat.opp a else a.

Definition true_div (a b : Z) : raises float :=
  if (b =? 0)%Z then None
  else Some (PrimFloat.div (float_of_Z a) (float_of_Z b)).

Definition int_of_float (f : float) : raises Z :=
  match Prim2SF f with
  | S754_zero _ => Some 0%Z
  | S754_finite sign mant e =>
      let a := if (0 <=? e)%Z then Z.shiftl (Z.pos mant) e
               else Z.shiftr (Z.pos mant) (- e) in
      Some (if sign then (- a)%Z else a)
  | _ => None
  end.

(** [int((1 - applicable_price / budget_max) * 20)] *)
Definition price_bonus (applicable_price budget_max : Z) : raises Z :=
  (price_ratio <- true_div applicable_price budget_max ;;
   int_of_float
     (PrimFloat.mul (PrimFloat.sub (float_of_Z 1) price_ratio) (float_of_Z 20))
  )%raises.

Definition eco_bonus (preferences : list str) (cat : str) : Z :=
  if mem (s2l "eco_friendly") preferences && str_eqb cat (s2l "Eco-Friendly")
  then 30 else 0.

Definition traditional_bonus (preferences : list str) (cat : str) : Z :=
  if mem (s2l "traditional") preferences
     && mem cat [s2l "Traditional"; s2l "Premium Traditional"]
  then 25 else 0.

Definition premium_bonus (preferences : list str) (cat : str) : Z :=
  if mem (s2l "premium") preferences && contains (s2l "Premium") cat
  then 20 else 0.

(** One turn of [for product in products_dict.values()]: [None] raises,
    [Some None] is [continue]. *)
Definition score_product (budget_max quantity : Z) (preferences : list str)
    (p : product) : raises (option found) :=
  (ap <- applicable_price budget_max quantity (pricing p) None ;;
   match ap with
   | None => Some None
   | Some a =>
       if (budget_max <? a)%Z then Some None
       else
         bonus <- price_bonus a budget_max ;;
         Some (Some {| name := p_name p; price := a; category := p_category p;
                       min_order := p_min_order p; image_url := p_image_url p;
                       relevance_score :=
                         100 + eco_bonus preferences (p_category p)
                         + traditional_bonus preferences (p_category p)
                         + premium_bonus preferences (p_category p)
                         + bonus |})
   end)%raises.

Fixpoint score_all (budget_max quantity : Z) (preferences : list str)
    (ps : list product) : raises (list found) :=
  match ps with
  | [] => Some []
  | p :: ps' =>
      (o <- score_product budget_max quantity preferences p ;;
       rest <- score_all budget_max quantity preferences ps' ;;
       Some (match o with Some f => f :: rest | None => rest end))%raises
  end.

(** [matching_products.sort(key=relevance_score, reverse=True)]: stable,
    highest score first. *)
Fixpoint insert_desc (x : found) (l : list found) : list found :=
  match l with
  | [] => [x]
  | y :: l' =>
      if (relevance_score y <? relevance_score x)%Z then x :: y :: l'
      else y :: insert_desc x l'
  end.

Definition sort_desc (l : list found) : list found :=
  fold_left (fun acc x => insert_desc x acc) l [].

(** The score of an entry recomputed from its price and category. *)
Definition score_formula (preferences : list str) (budget_max : Z) (f : found)
  : raises Z :=
  option_map
    (fun bonus => 100 + eco_bonus preferences (category f)
                  + traditional_bonus preferences (category f)
                  + premium_bonus preferences (category f) + bonus)%Z
    (price_bonus (price f) budget_max).

(** The price bonus in the words of the specification, for a positive
    budget: [(1 - price / budget) * 20] rounded to the nearest integer,
    computed exactly. *)
Definition rounded_price_bonus (price budget_max : Z) : Z :=
  ((2 * 20 * (budget_max - price) + budget_max) / (2 * budget_max))%Z.

Definition specified_score (preferences : list str) (budget_max : Z) (f : found)
  : Z :=
  (100 + eco_bonus preferences (category f)
   + traditional_bonus preferences (category f)
   + premium_bonus preferences (category f)
   + rounded_price_bonus (price f) budget_max)%Z.

(** [rows] is what [cursor.fetchall()] returned for the query. *)
Definition search_matching_products (rows : list row) (budget_max quantity : Z)
    (preferences : list str) : raises (list found) :=
  option_map sort_desc
    (score_all budget_max quantity preferences (group_rows rows)).

End Products.

(** ** Conversation state *)

Module Stage.
Inductive t : Type :=
| greeting
| intent_classification
| requirement_extraction
| awaiting_confirmation
| validation
| product_search
| recommendation
| product_selection
| order_confirmation
| handoff.

Definition eqb (a b : t) : bool :=
  match a, b with
  | greeting, greeting | intent_classification, intent_classification
  | requirement_extraction, requirement_extraction
  | awaiting_confirmation, awaiting_confirmation | validation, validation
  | product_search, product_search | recommendation, recommendation
  | product_selection, product_selection
  | order_confirmation, order_confirmation | handoff, handoff => true
  | _, _ => false
  end.
End Stage.

Inductive Message : Type :=
| HumanMessage (content : str)
| AIMessage (content : str).

Record CustomerIntent : Type := {
  intent_label : str;
  confidence_percent : Z;
  entities_mentioned : list str
}.

Record ValidationResult : Type := {
  is_valid : bool;
  issues : list str;
  suggestions : list str;
  delivery_date : option str;
  urgency_level : Urgency
}.

Record BotState : Type := {
  messages : list Message;
  user_id : str;
  requirements : option ExtractedRequirements;
  validation : option ValidationResult;
  recommended_products : option (list Products.found);
  selected_product : option Products.found;
  current_stage : option Stage.t;
  intent : option CustomerIntent;
  conversation_history_summary : option str;
  handoff_reason : option str;
  has_greeted : bool;
  needs_human_handoff : bool;
  error_count : Z
}.

(** The state of a conversation that has no checkpoint yet: no key is set,
    so every [state.get] gives [None]. *)
Definition new_conversation : BotState :=
  {| messages := []; user_id := []; requirements := None; validation := None;
     recommended_products := None; selected_product := None;
     current_stage := None; intent := None;
     conversation_history_summary := None; handoff_reason := None;
     has_greeted := false; needs_human_handoff := false; error_count := 0 |}.

(** The dictionary a node returns: a key is either absent ([None]) or
    present with its new value.  [messages] is joined with [operator.add],
    every other key replaces the old value. *)
Record Update : Type := {
  u_messages : list Message;
  u_requirements : option (option ExtractedRequirements);
  u_validation : option (option ValidationResult);
  u_recommended_products : option (option (list Products.found));
  u_selected_product : option (option Products.found);
  u_current_stage : option Stage.t;
  u_intent : option CustomerIntent;
  u_conversation_history_summary : option str;
  u_handoff_reason : option (option str);
  u_has_greeted : option bool;
  u_needs_human_handoff : option bool;
  u_error_count : option Z
}.

Definition no_update : Update :=
  {| u_messages := []; u_requirements := None; u_validation := None;
     u_recommended_products := None; u_selected_product := None;
     u_current_stage := None; u_intent := None;
     u_conversation_history_summary := None; u_handoff_reason := None;
     u_has_greeted := None; u_needs_human_handoff := None;
     u_error_count := None |}.

Definition or_old {T : Type} (new : option T) (old : T) : T :=
  match new with Some v => v | None => old end.

Definition apply_update (st : BotState) (u : Update) : BotState :=
  {| messages := messages st ++ u_messages u;
     user_id := user_id st;
     requirements := or_old (u_requirements u) (requirements st);
     validation := or_old (u_validation u) (validation st);
     recommended_products :=
       or_old (u_recommended_products u) (recommended_products st);
     selected_product := or_old (u_selected_product u) (selected_product st);
     current_stage :=
       match u_current_stage u with
       | Some g => Some g
       | None => current_stage st
       end;
     intent :=
       match u_intent u with Some i => Some i | None => intent st end;
     conversation_history_summary :=
       match u_conversation_history_summary u with
       | Some t => Some t
       | None => conversation_history_summary st
       end;
     handoff_reason := or_old (u_handoff_reason u) (handoff_reason st);
     has_greeted := or_old (u_has_greeted u) (has_greeted st);
     needs_human_handoff :=
       or_old (u_needs_human_handoff u) (needs_human_handoff st);
     error_count := or_old (u_error_count u) (error_count st) |}.

Definition stage_update (g : Stage.t) : Update :=
  {| u_messages := []; u_requirements := None; u_validation := None;
     u_recommended_products := None; u_selected_product := None;
     u_current_stage := Some g; u_intent := None;
     u_conversation_history_summary := None; u_handoff_reason := None;
     u_has_greeted := None; u_needs_human_handoff := None;
     u_error_count := None |}.

(** [{"current_stage": "handoff", "needs_human_handoff": True,
      "handoff_reason": reason}] *)
Definition handoff_update (reason : string) : Update :=
  {| u_messages := []; u_requirements := None; u_validation := None;
     u_recommended_products := None; u_selected_product := None;
     u_current_stage := Some Stage.handoff; u_intent := None;
     u_conversation_history_summary := None;
     u_handoff_reason := Some (Some (s2l reason));
     u_has_greeted := None; u_needs_human_handoff := Some true;
     u_error_count := None |}.

Fixpoint human_contents (ms : list Message) : list str :=
  match ms with
  | [] => []
  | HumanMessage c :: ms' => c :: human_contents ms'
  | AIMessage _ :: ms' => human_contents ms'
  end.

(** [user_messages[-1].content], when there is a user message *)
Definition last_human (st : BotState) : option str :=
  last (map Some (human_contents (messages st))) None.

Definition str_of_Z (z : Z) : str := s2l (NilEmpty.string_of_int (Z.to_int z)).

Definition dq : ascii := ascii_of_nat 34.

(** ** Display helpers *)

Definition timeline_display_map : list (string * string) :=
  [ ("asap", "ASAP"); ("today", "Today"); ("tomorrow", "Tomorrow");
    ("this_week", "This week"); ("next_week", "Next week");
    ("two_weeks", "In 2 weeks"); ("one_month", "In 1 month") ]%string.

Fixpoint display_lookup (tm : list (string * string)) (key : str) : option str :=
  match tm with
  | [] => None
  | (k, v) :: tm' =>
      if str_eqb (s2l k) key then Some (s2l v) else display_lookup tm' key
  end.

Definition capitalize (s : str) : str :=
  match s with
  | [] => []
  | c :: s' => upper_char c :: lower s'
  end.

Fixpoint insert_spaces (at_pos : list nat) (i : nat) (s : str) : str :=
  match s with
  | [] => []
  | c :: s' =>
      if existsb (Nat.eqb i) at_pos then " "%char :: c :: insert_spaces at_pos (S i) s'
      else c :: insert_spaces at_pos (S i) s'
  end.

(** [re.sub(r'(jan|...|dec)(\d)', r'\1 \2', s, flags=re.IGNORECASE)]: a
    blank goes before the digit that ends each match. *)
Definition space_after_month (s : str) : str :=
  insert_spaces
    (map (fun x => m_end x - 1) (finditer (seqs [Grp 1 months; Grp 2 d]) (lower s)))
    0 s.

Definition format_timeline_display (timeline : str) : str :=
  match display_lookup timeline_display_map timeline with
  | Some v => v
  | None => capitalize (space_after_month (strip timeline))
  end.

(** ** The collaborators outside the repository *)

Record World : Type := {
  clock : Clock;
  (** [(prompt | llm).invoke({"message": m}).content] *)
  llm_invoke : str -> raises str;
  (** connect, run the query with the given quantity, [fetchall()] *)
  fetch_rows : Z -> raises (list Products.row)
}.

(** ** Nodes *)

Module Nodes.

Definition greeting_msg : str :=
  s2l "Hello mam/sir! 😊" ++ [nl; nl]
  ++ s2l "Could you please tell your return gift requirement:" ++ [nl; nl]
  ++ s2l "1. Quantity" ++ [nl] ++ s2l "2. Budget per piece" ++ [nl]
  ++ s2l "3. When needed" ++ [nl] ++ s2l "4. Delivery location" ++ [nl; nl]
  ++ s2l "Thank you!".

Definition greeting_node (state : BotState) : Update :=
  {| u_messages := [AIMessage greeting_msg];
     u_requirements := None; u_validation := None;
     u_recommended_products := None; u_selected_product := None;
     u_current_stage := Some Stage.intent_classification; u_intent := None;
     u_conversation_history_summary := None; u_handoff_reason := None;
     u_has_greeted := Some true; u_needs_human_handoff := None;
     u_error_count := Some 0%Z |}.

Definition image_marker : str := s2l "[IMAGE_SENT]".

Definition quick_price_queries : list str :=
  map s2l [ "pp"; "price please"; "price pls"; "rate pls"; "rate please";
            "available?"; "stock?"; "available"; "in stock" ]%string.

Definition is_quick_query (last_msg msg_lower : str) : bool :=
  (py_len last_msg <=? 20)
  && existsb (fun query => contains query msg_lower) quick_price_queries.

Definition confirm_words : list str :=
  map s2l ["yes"; "y"; "ok"; "correct"; "confirm"; "right"; "hai"]%string.

Definition greeting_keywords : list str :=
  map s2l ["hello"; "hi"; "hey"; "start"; "new"; "hai"]%string.

Definition is_greeting (msg_lower : str) : bool :=
  existsb (fun keyword => str_eqb keyword msg_lower) greeting_keywords.

Definition late_stages : list Stage.t :=
  [Stage.product_selection; Stage.order_confirmation].

Definition stage_is (g : Stage.t) (cur : option Stage.t) : bool :=
  match cur with Some c => Stage.eqb c g | None => false end.

Definition reset_after_handoff : Update :=
  {| u_messages := [];
     u_requirements := Some None; u_validation := Some None;
     u_recommended_products := Some None; u_selected_product := Some None;
     u_current_stage := Some Stage.requirement_extraction; u_intent := None;
     u_conversation_history_summary := None; u_handoff_reason := Some None;
     u_has_greeted := Some true; u_needs_human_handoff := Some false;
     u_error_count := None |}.

Definition reset_late_stage : Update :=
  {| u_messages := [];
     u_requirements := Some None; u_validation := Some None;
     u_recommended_products := Some None; u_selected_product := Some None;
     u_current_stage := Some Stage.requirement_extraction; u_intent := None;
     u_conversation_history_summary := None; u_handoff_reason := None;
     u_has_greeted := Some true; u_needs_human_handoff := None;
     u_error_count := None |}.

Definition intent_date_patterns : list regex :=
  [ months;
    seqs [d_1_2; Cls (fun c => existsb (Ascii.eqb c) (s2l "/-")); d_1_2];
    alts ["tomorrow"; "today"; "next week"; "asap"]%string ].

Definition unhandleable_patterns : list str :=
  map s2l [ "refund"; "cancel"; "complaint"; "issue"; "problem";
            "shipping cost"; "delivery charge"; "payment method";
            "customization"; "customize"; "design change";
            "bulk discount"; "wholesale" ]%string.

Definition set_needs_confirmation (v : bool) (r : ExtractedRequirements)
  : ExtractedRequirements :=
  {| quantity := quantity r; budget_per_piece := budget_per_piece r;
     timeline := timeline r; location := location r;
     preferences := preferences r; needs_confirmation := v |}.

Definition confirmed_update (req : option ExtractedRequirements) : Update :=
  {| u_messages := [];
     u_requirements := Some (option_map (set_needs_confirmation false) req);
     u_validation := None;
     u_recommended_products := None; u_selected_product := None;
     u_current_stage := Some Stage.validation; u_intent := None;
     u_conversation_history_summary := None; u_handoff_reason := None;
     u_has_greeted := None; u_needs_human_handoff := None;
     u_error_count := None |}.

Definition browse_update : Update :=
  {| u_messages := []; u_requirements := None; u_validation := None;
     u_recommended_products := None; u_selected_product := None;
     u_current_stage := Some Stage.requirement_extraction;
     u_intent := Some {| intent_label := s2l "browse_products";
                         confidence_percent := 85;
                         entities_mentioned := [] |};
     u_conversation_history_summary := None; u_handoff_reason := None;
     u_has_greeted := None; u_needs_human_handoff := None;
     u_error_count := None |}.

(** PRIORITY 7 *)
Definition llm_classification (W : World) (last_msg : str) : raises Update :=
  (content <- llm_invoke W last_msg ;;
   let intent_text := lower content in
   let has (w : string) := contains (s2l w) intent_text in
   if has "track_order"%string || has "ask_question"%string
      || has "complaint"%string
   then Some (handoff_update "llm_classification")
   else if has "browse"%string || has "product"%string || has "greeting"%string
   then Some browse_update
   else Some (handoff_update "llm_classification"))%raises.

Definition intent_classifier_node (W : World) (state : BotState)
  : raises Update :=
  if needs_human_handoff state then Some no_update
  else
    match last_human state with
    | None => Some no_update
    | Some last_msg =>
        let msg_lower := strip (lower last_msg) in
        let current_stage := current_stage state in
        if contains image_marker last_msg
        then Some (handoff_update "image_sent")
        else if is_quick_query last_msg msg_lower
        then Some (handoff_update "quick_price_query")
        else if stage_is Stage.awaiting_confirmation current_stage
        then
          if mem msg_lower confirm_words
          then Some (confirmed_update (requirements state))
          else Some (stage_update Stage.requirement_extraction)
        else if is_greeting msg_lower
        then
          if stage_is Stage.handoff current_stage
          then Some reset_after_handoff
          else if existsb (fun g => stage_is g current_stage) late_stages
          then Some reset_late_stage
          else Some (stage_update Stage.requirement_extraction)
        else if isdigit msg_lower
        then Some (stage_update Stage.requirement_extraction)
        else if (length (split_ws msg_lower) =? 1) && (2 <? py_len msg_lower)
        then Some (stage_update Stage.requirement_extraction)
        else if existsb (fun pattern => negb (is_none (search pattern msg_lower)))
                        intent_date_patterns
        then Some (stage_update Stage.requirement_extraction)
        else if existsb (fun pattern => contains pattern msg_lower)
                        unhandleable_patterns
        then Some (handoff_update "unhandleable_query")
        else llm_classification W last_msg
    end.

(** *** Requirement accumulator *)

Definition set_quantity (v : option Z) (r : ExtractedRequirements)
  : ExtractedRequirements :=
  {| quantity := v; budget_per_piece := budget_per_piece r;
     timeline := timeline r; location := location r;
     preferences := preferences r;
     needs_confirmation := needs_confirmation r |}.

Definition set_budget_per_piece (v : option Z) (r : ExtractedRequirements)
  : ExtractedRequirements :=
  {| quantity := quantity r; budget_per_piece := v;
     timeline := timeline r; location := location r;
     preferences := preferences r;
     needs_confirmation := needs_confirmation r |}.

Definition has_qty_keyword (msg_lower : str) : bool :=
  existsb (fun word => contains (s2l word) msg_lower)
          ["quantity"; "qty"; "pieces"; "pcs"]%string.

Definition has_budget_keyword (msg_lower : str) : bool :=
  existsb (fun word => contains (s2l word) msg_lower)
          ["budget"; "price"; "rs"; "rupees"; "₹"]%string.

(** One key of the loop over [extracted.items()], for [quantity] and
    [budget_per_piece]: [guard] is the keyword test of that key. *)
Definition merge_guarded (guard : bool) (current value : option Z) : option Z :=
  match value with
  | None => current
  | Some v =>
      match current with
      | None => Some v
      | Some c => if guard then Some v else Some c
      end
  end.

(** The other keys: any extracted value that is not [None] replaces the
    current one. *)
Definition merge_plain {T : Type} (current value : option T) : option T :=
  match value with
  | None => current
  | Some v => Some v
  end.

Definition smart_merge (current_req extracted : ExtractedRequirements)
    (last_msg : str) : ExtractedRequirements :=
  let msg_lower := lower last_msg in
  {| quantity :=
       merge_guarded (has_qty_keyword msg_lower)
                     (quantity current_req) (quantity extracted);
     budget_per_piece :=
       merge_guarded (has_budget_keyword msg_lower)
                     (budget_per_piece current_req) (budget_per_piece extracted);
     timeline := merge_plain (timeline current_req) (timeline extracted);
     location := merge_plain (location current_req) (location extracted);
     preferences :=
       match preferences extracted with
       | [] => preferences current_req
       | l => l
       end;
     needs_confirmation := needs_confirmation extracted |}.

Definition requirements_update (req : ExtractedRequirements) : Update :=
  {| u_messages := []; u_requirements := Some (Some req); u_validation := None;
     u_recommended_products := None; u_selected_product := None;
     u_current_stage := Some Stage.validation; u_intent := None;
     u_conversation_history_summary := None; u_handoff_reason := None;
     u_has_greeted := None; u_needs_human_handoff := None;
     u_error_count := None |}.

(** Normal extraction followed by the merge. *)
Definition general_extraction (current_req : option ExtractedRequirements)
    (last_msg : str) : Update :=
  let extracted := extract_customer_requirements last_msg in
  requirements_update
    match current_req with
    | Some req => smart_merge req extracted last_msg
    | None => extracted
    end.

Definition requirement_extraction_node (state : BotState) : Update :=
  let last_msg := match last_human state with Some c => c | None => [] end in
  let current_req := requirements state in
  if isdigit (strip last_msg) then
    let number := int_of_digits (strip last_msg) in
    match current_req with
    | Some req =>
        match quantity req with
        | None => requirements_update (set_quantity (Some number) req)
        | Some _ =>
            match budget_per_piece req with
            | None => requirements_update (set_budget_per_piece (Some number) req)
            | Some _ => general_extraction current_req last_msg
            end
        end
    | None => general_extraction current_req last_msg
    end
  else general_extraction current_req last_msg.

(** *** Routing after extraction, questions, validation, search *)

Inductive route : Type := to_validate | to_ask_confirmation.

Definition validation_router (state : BotState) : route :=
  match requirements state with
  | None => to_ask_confirmation
  | Some req =>
      if negb (negb (is_none (quantity req))
               && negb (is_none (budget_per_piece req))
               && negb (is_none (timeline req))
               && negb (is_none (location req)))
      then to_ask_confirmation
      else if needs_confirmation req then to_ask_confirmation
      else to_validate
  end.

(** Truth value of an [int | None] and of a [str | None] *)
Definition truthy_Z (o : option Z) : bool :=
  match o with Some z => negb (z =? 0)%Z | None => false end.

Definition truthy_str (o : option str) : bool := negb (is_empty_opt o).

Definition fmt_Z (o : option Z) : str :=
  match o with Some z => str_of_Z z | None => s2l "None" end.

Definition fmt_str (o : option str) : str :=
  match o with Some t => t | None => s2l "None" end.

Definition message_update (msg : str) (g : Stage.t) : Update :=
  {| u_messages := [AIMessage msg]; u_requirements := None;
     u_validation := None;
     u_recommended_products := None; u_selected_product := None;
     u_current_stage := Some g; u_intent := None;
     u_conversation_history_summary := None; u_handoff_reason := None;
     u_has_greeted := None; u_needs_human_handoff := None;
     u_error_count := None |}.

Definition confirm_prompt (req : ExtractedRequirements) : str :=
  s2l "Can you please confirm?" ++ [nl; nl]
  ++ s2l "Quantity: " ++ fmt_Z (quantity req) ++ s2l " pieces" ++ [nl]
  ++ s2l "Budget: ₹" ++ fmt_Z (budget_per_piece req) ++ s2l " per piece"
  ++ [nl; nl]
  ++ s2l "Reply " ++ [dq] ++ s2l "yes" ++ [dq]
  ++ s2l " to confirm or send correct values.".

Definition missing_fields (req : ExtractedRequirements) : list str :=
  (if truthy_Z (quantity req) then [] else [s2l "Quantity"])
  ++ (if truthy_Z (budget_per_piece req) then [] else [s2l "Budget per piece"])
  ++ (if truthy_str (timeline req) then [] else [s2l "When needed"])
  ++ (if truthy_str (location req) then [] else [s2l "Delivery location"]).

Fixpoint join (sep : str) (l : list str) : str :=
  match l with
  | [] => []
  | [a] => a
  | a :: l' => a ++ sep ++ join sep l'
  end.

(** The text listing what is missing; [missing[0]] on an empty list raises. *)
Definition share_items (missing : list str) : raises str :=
  match missing with
  | [] => None
  | [a] => Some a
  | _ => Some (join (s2l ", ") (removelast missing) ++ s2l " and "
               ++ last missing [])
  end.

Definition ask_confirmation_node (state : BotState) : raises Update :=
  match requirements state with
  | None => Some (stage_update Stage.requirement_extraction)
  | Some req =>
      if needs_confirmation req && truthy_Z (quantity req)
         && truthy_Z (budget_per_piece req)
      then Some (message_update (confirm_prompt req) Stage.awaiting_confirmation)
      else
        (items <- share_items (missing_fields req) ;;
         Some (message_update
                 (s2l "Could you please share " ++ items ++ s2l "?")
                 Stage.requirement_extraction))%raises
  end.

Definition validation_node (W : World) (state : BotState) : raises Update :=
  (req <- requirements state ;;
   tl <- timeline req ;;
   let timeline_result := Timeline.calculate_timeline_urgency (clock W) tl in
   Some {| u_messages := []; u_requirements := None;
           u_validation :=
             Some (Some {| is_valid := true; issues := []; suggestions := [];
                           delivery_date :=
                             Some (Timeline.delivery_date timeline_result);
                           urgency_level :=
                             Timeline.urgency_level timeline_result |});
           u_recommended_products := None; u_selected_product := None;
           u_current_stage := Some Stage.product_search; u_intent := None;
           u_conversation_history_summary := None; u_handoff_reason := None;
           u_has_greeted := None; u_needs_human_handoff := None;
           u_error_count := None |})%raises.

Definition product_search_node (W : World) (state : BotState) : raises Update :=
  (req <- requirements state ;;
   budget_max <- budget_per_piece req ;;
   qty <- quantity req ;;
   rows <- fetch_rows W qty ;;
   products <- Products.search_matching_products rows budget_max qty
                 (preferences req) ;;
   Some {| u_messages := []; u_requirements := None; u_validation := None;
           u_recommended_products := Some (Some products);
           u_selected_product := None;
           u_current_stage := Some Stage.recommendation; u_intent := None;
           u_conversation_history_summary := None; u_handoff_reason := None;
           u_has_greeted := None; u_needs_human_handoff := None;
           u_error_count := None |})%raises.

Definition product_marker : str := s2l "[SEND_PRODUCT_IMAGES_WITH_SUMMARY]".

Definition handoff_message_update (msg : str) (summary : option str)
    (reason : string) : Update :=
  {| u_messages := [AIMessage msg]; u_requirements := None;
     u_validation := None;
     u_recommended_products := None; u_selected_product := None;
     u_current_stage := Some Stage.handoff; u_intent := None;
     u_conversation_history_summary := summary;
     u_handoff_reason := Some (Some (s2l reason));
     u_has_greeted := None; u_needs_human_handoff := Some true;
     u_error_count := None |}.

Definition recommendation_node (state : BotState) : raises Update :=
  (req <- requirements state ;;
   match recommended_products state with
   | None | Some [] =>
       Some (handoff_message_update
               (s2l "Sorry mam/sir, no products available for ₹"
                ++ fmt_Z (budget_per_piece req) ++ s2l " per piece." ++ [nl; nl]
                ++ s2l "Our team will help you find alternatives." ++ [nl; nl]
                ++ s2l "Thank you! 🙏")
               None "no_products")
   | Some products =>
       tl <- timeline req ;;
       let timeline_display := format_timeline_display tl in
       Some (handoff_message_update product_marker
               (Some (s2l "Based on your requirement," ++ [nl; nl]
                      ++ s2l "Number of pieces: " ++ fmt_Z (quantity req)
                      ++ s2l " pieces" ++ [nl]
                      ++ s2l "Budget: ₹" ++ fmt_Z (budget_per_piece req)
                      ++ s2l " per piece" ++ [nl]
                      ++ s2l "Delivery location: " ++ fmt_str (location req)
                      ++ [nl]
                      ++ s2l "When needed: " ++ timeline_display ++ [nl; nl]
                      ++ s2l "Here are "
                      ++ str_of_Z (Z.of_nat (length products))
                      ++ s2l " options for you:"))
               "products_shown")
   end)%raises.

(** The record the conversation holds once the extraction node has run. *)
Definition requirements_after (state : BotState) : option ExtractedRequirements :=
  requirements (apply_update state (requirement_extraction_node state)).

End Nodes.

(** ** The graph *)

Module Graph.

Import Nodes.

Inductive entry : Type := to_greeting | to_classify_intent.

Definition quick_queries : list str :=
  map s2l [ "pp"; "price please"; "price pls"; "available?"; "stock?";
            "available"; "in stock"; "rate pls"; "rate please" ]%string.

Definition entry_router (state : BotState) : entry :=
  let special :=
    match last_human state with
    | Some last_msg =>
        let msg_lower := strip (lower last_msg) in
        contains image_marker last_msg
        || ((py_len last_msg <=? 20)
            && existsb (fun q => contains q msg_lower) quick_queries)
    | None => false
    end in
  if special then to_classify_intent
  else if negb (has_greeted state) then to_greeting
  else to_classify_intent.

Inductive after_intent : Type := to_extract_requirements | to_end.

Definition post_intent_router (state : BotState) : after_intent :=
  if stage_is Stage.handoff (current_stage state) || needs_human_handoff state
  then to_end
  else to_extract_requirements.

(** The input of a turn, [{"messages": [HumanMessage(message)],
    "user_id": user_id}], joined to the checkpointed state. *)
Definition receive (state : BotState) (uid message : str) : BotState :=
  {| messages := messages state ++ [HumanMessage message];
     user_id := uid;
     requirements := requirements state; validation := validation state;
     recommended_products := recommended_products state;
     selected_product := selected_product state;
     current_stage := current_stage state; intent := intent state;
     conversation_history_summary := conversation_history_summary state;
     handoff_reason := handoff_reason state;
     has_greeted := has_greeted state;
     needs_human_handoff := needs_human_handoff state;
     error_count := error_count state |}.

(** The steps a turn goes through, for the record of a run. *)
Inductive node : Type :=
| n_greeting | n_classify_intent | n_extract_requirements
| n_ask_confirmation | n_validate | n_search_products | n_recommend.

(** [graph.invoke(input_state, config)]: the final state and the nodes that
    ran, in order. *)
Definition invoke (W : World) (state : BotState) (uid message : str)
  : raises (BotState * list node) :=
  let st0 := receive state uid message in
  match entry_router st0 with
  | to_greeting => Some (apply_update st0 (greeting_node st0), [n_greeting])
  | to_classify_intent =>
      (u1 <- intent_classifier_node W st0 ;;
       let st1 := apply_update st0 u1 in
       match post_intent_router st1 with
       | to_end => Some (st1, [n_classify_intent])
       | to_extract_requirements =>
           let st2 := apply_update st1 (requirement_extraction_node st1) in
           match validation_router st2 with
           | to_ask_confirmation =>
               u3 <- ask_confirmation_node st2 ;;
               Some (apply_update st2 u3,
                     [n_classify_intent; n_extract_requirements;
                      n_ask_confirmation])
           | to_validate =>
               u3 <- validation_node W st2 ;;
               let st3 := apply_update st2 u3 in
               u4 <- product_search_node W st3 ;;
               let st4 := apply_update st3 u4 in
               u5 <- recommendation_node st4 ;;
               Some (apply_update st4 u5,
                     [n_classify_intent; n_extract_requirements; n_validate;
                      n_search_products; n_recommend])
           end
       end)%raises
  end.

End Graph.

(** ** The bot's chat interface *)

Module Bot.

Import Nodes.

Record customer_requirements : Type := {
  cr_quantity : option Z;
  cr_budget_per_piece : option Z;
  cr_timeline : option str;
  cr_location : option str
}.

Record response : Type := {
  reply : option str;
  needs_handoff : bool;
  products : option (list Products.found);
  requirements_summary : option str;
  customer : option customer_requirements;
  handoff_reason_text : option str
}.

(** [message[:n]], counted in code points *)
Fixpoint py_take (n : nat) (s : str) : str :=
  match s with
  | [] => []
  | c :: s' =>
      if between 128 191 c then c :: py_take n s'
      else match n with
           | O => []
           | S n' => c :: py_take n' s'
           end
  end.

Definition build_handoff_reason (reason_type : option str) (message : str) : str :=
  let reason_is (w : string) :=
    match reason_type with Some r => str_eqb r (s2l w) | None => false end in
  if reason_is "image_sent"%string
  then s2l "🚨 Reason: Customer sent image (bot cannot identify products from images)"
  else if reason_is "quick_price_query"%string
  then s2l "🚨 Reason: Quick price query (likely referring to Instagram post)"
  else if reason_is "products_shown"%string
  then s2l "✅ Reason: Bot showed product options, now customer needs personalization help"
  else if reason_is "no_products"%string
  then s2l "⚠️ Reason: No products match customer's budget"
  else if reason_is "unhandleable_query"%string
  then s2l "🚨 Reason: Unhandleable query - " ++ py_take 50 message ++ s2l "..."
  else if reason_is "llm_classification"%string
  then s2l "🚨 Reason: Customer query requires human assistance"
  else if reason_is "bot_error"%string
  then s2l "❌ Reason: Bot encountered an error"
  else s2l "🚨 Reason: " ++ fmt_str reason_type.

Fixpoint latest_ai (ms : list Message) : option str :=
  match ms with
  | [] => None
  | HumanMessage _ :: ms' => latest_ai ms'
  | AIMessage c :: ms' =>
      match latest_ai ms' with
      | Some later => Some later
      | None => Some c
      end
  end.

(** The dictionary built for a silent handoff. *)
Definition known_fields (req : option ExtractedRequirements)
  : option customer_requirements :=
  match req with
  | None => None
  | Some r =>
      Some {| cr_quantity := if truthy_Z (quantity r) then quantity r else None;
              cr_budget_per_piece :=
                if truthy_Z (budget_per_piece r) then budget_per_piece r
                else None;
              cr_timeline :=
                if truthy_str (timeline r)
                then option_map format_timeline_display (timeline r) else None;
              cr_location :=
                if truthy_str (location r) then location r else None |}
  end.

Definition silent_handoff (result : BotState) (message : str) : response :=
  {| reply := None; needs_handoff := true; products := None;
     requirements_summary := None;
     customer := known_fields (requirements result);
     handoff_reason_text :=
       Some (build_handoff_reason (handoff_reason result) message) |}.

(** SCENARIO E and the [except] branch *)
Definition fallback : response :=
  {| reply := None; needs_handoff := true; products := None;
     requirements_summary := None; customer := None;
     handoff_reason_text := None |}.

(** The body of the [try] block of [chat]; [state] is the checkpointed
    state of the thread. *)
Definition chat_body (W : World) (state : BotState) (uid message : str)
  : raises response :=
  (let messages_before := length (messages state) in
   run <- Graph.invoke W state uid message ;;
   let result := fst run in
   let new_messages_count := length (messages result) - messages_before in
   let bot_generated_new_message := 1 <? new_messages_count in
   let handoff := needs_human_handoff result in
   let latest_bot_response := latest_ai (messages result) in
   if bot_generated_new_message
      && match latest_bot_response with
         | Some r => str_eqb r product_marker
         | None => false
         end
      && handoff
   then
     req <- requirements result ;;
     tl <- timeline req ;;
     Some {| reply := Some product_marker; needs_handoff := true;
             products := recommended_products result;
             requirements_summary := conversation_history_summary result;
             customer :=
               Some {| cr_quantity := quantity req;
                       cr_budget_per_piece := budget_per_piece req;
                       cr_timeline := Some (format_timeline_display tl);
                       cr_location := location req |};
             handoff_reason_text :=
               Some (build_handoff_reason (handoff_reason result) []) |}
   else if handoff then Some (silent_handoff result message)
   else if bot_generated_new_message && truthy_str latest_bot_response
   then Some {| reply := latest_bot_response; needs_handoff := false;
                products := None; requirements_summary := None;
                customer := None; handoff_reason_text := None |}
   else Some fallback)%raises.

Definition chat (W : World) (state : BotState) (uid message : str) : response :=
  try_except (chat_body W state uid message) fallback.

End Bot.

(** ** Sample data for concrete runs *)

Module Demo.

(** A clock that counts days from today, with a parser that recognises
    nothing. *)
Definition day_clock : Clock :=
  {| datetime := Z;
     now := 0%Z;
     parse := fun _ _ => None;
     dt_ltb := Z.ltb;
     dt_year := fun _ => 2026%Z;
     replace_year := fun d _ => Some d;
     sub_days := Z.sub;
     add_days := Z.add;
     strftime := str_of_Z |}.

Definition box : Products.row :=
  {| Products.r_product_id := 1; Products.r_name := s2l "Gift box";
     Products.r_category := s2l "Eco-Friendly"; Products.r_image_url := [];
     Products.r_min_order := 1; Products.r_qty_range := s2l "1+";
     Products.r_price := 1 |}.

Definition world : World :=
  {| clock := day_clock;
     llm_invoke := fun _ => Some (s2l "browse_products");
     fetch_rows := fun _ => Some [box] |}.

Definition lines (l : list string) : str :=
  match l with
  | [] => []
  | a :: l' => fold_left (fun acc x => acc ++ nl :: s2l x) l' (s2l a)
  end.

(** The two messages of the test conversations at the end of the source *)
Definition clear_numbers : str :=
  lines ["500"; "45"; "Feb 22"; "Chennai"]%string.

Definition ambiguous_numbers : str :=
  lines ["50"; "100"; "Feb 22"; "Chennai"]%string.

Definition anchored_message : str :=
  s2l "50 pieces, budget rs 100, asap, Mumbai".

(** The record a new conversation holds after [anchored_message]. *)
Definition anchored_state : BotState :=
  let greeted :=
    apply_update new_conversation (Nodes.greeting_node new_conversation) in
  let st := Graph.receive greeted (s2l "user") anchored_message in
  apply_update st (Nodes.requirement_extraction_node st).

(** A conversation that was handed off after the products were shown. *)
Definition handed_off : BotState :=
  {| messages := messages anchored_state ++ [AIMessage Nodes.product_marker];
     user_id := s2l "user";
     requirements := requirements anchored_state;
     validation := None;
     recommended_products := Some [];
     selected_product := None;
     current_stage := Some Stage.handoff;
     intent := None;
     conversation_history_summary := None;
     handoff_reason := Some (s2l "products_shown");
     has_greeted := true;
     needs_human_handoff := true;
     error_count := 0 |}.

(** A record with the quantity only. *)
Definition quantity_only : ExtractedRequirements :=
  {| quantity := Some 500%Z; budget_per_piece := None; timeline := None;
     location := None; preferences := []; needs_confirmation := false |}.

Definition quantity_only_state (message : str) : BotState :=
  {| messages := [HumanMessage message];
     user_id := s2l "user";
     requirements := Some quantity_only;
     validation := None; recommended_products := None;
     selected_product := None;
     current_stage := Some Stage.requirement_extraction;
     intent := None; conversation_history_summary := None;
     handoff_reason := None; has_greeted := true;
     needs_human_handoff := false; error_count := 0 |}.

End Demo.

(** ** Reachable conversations and the hand-off flag *)

(** The conversations the graph produces, turn after turn, from a new
    one. *)
Inductive reachable (W : World) : BotState -> Prop :=
| reach_new : reachable W new_conversation
| reach_turn (st st' : BotState) (uid message : str) (ns : list Graph.node) :
    reachable W st ->
    Graph.invoke W st uid message = Some (st', ns) ->
    reachable W st'.

(** A conversation in the hand-off stage has the hand-off flag set. *)
Definition handoff_flagged (st : BotState) : Prop :=
  current_stage st = Some Stage.handoff -> needs_human_handoff st = true.

(** An update that moves to the hand-off stage sets the flag, and one that
    leaves the stage alone leaves the flag alone. *)
Definition flagging (u : Update) : Prop :=
  match u_current_stage u with
  | Some Stage.handoff => u_needs_human_handoff u = Some true
  | Some _ => True
  | None => u_needs_human_handoff u = None
  end.

(** ** Nodes that the graph does not use

    [product_selection_node] and [order_confirmation_node] are defined in the
    source but never added to the graph. *)

Module LateNodes.

Import Nodes.







(** [f"{total:,}"] *)
Fixpoint group3 (digits_rev : str) (k : nat) : str :=
  match digits_rev with
  | [] => []
  | c :: rest =>
      if k =? 3 then ","%char :: c :: group3 rest 1
      else c :: group3 rest (S k)
  end.

Definition fmt_thousands (z : Z) : str :=
  (if (z <? 0)%Z then s2l "-" else [])
  ++ rev (group3 (rev (str_of_Z (Z.abs z))) 0).

Definition contact_shortly : str :=
  s2l "Our team will contact you shortly to complete your order."
  ++ [nl; nl] ++ s2l "Thank you! 🙏".

Definition order_summary (product : Products.found)
    (req : ExtractedRequirements) (qty : Z) : str :=
  s2l "Thank you!" ++ [nl; nl]
  ++ Products.name product ++ [nl]
  ++ s2l "Quantity: " ++ str_of_Z qty ++ s2l " pieces" ++ [nl]
  ++ s2l "Total: ₹" ++ fmt_thousands (Products.price product * qty) ++ [nl]
  ++ (if truthy_str (location req)
      then s2l "Location: " ++ fmt_str (location req) ++ [nl] else [])
  ++ [nl] ++ s2l "Our team will contact you shortly." ++ [nl; nl]
  ++ s2l "Thank you! 🙏".

(** [product['price'] * req.quantity] raises when the quantity is [None]. *)
Definition order_confirmation_node (state : BotState) : raises Update :=
  match selected_product state, requirements state with
  | Some product, Some req =>
      (qty <- quantity req ;;
       Some (message_update (order_summary product req qty) Stage.handoff)
      )%raises
  | _, _ =>
      Some {| u_messages := [AIMessage contact_shortly];
              u_requirements := None; u_validation := None;
              u_recommended_products := None; u_selected_product := None;
              u_current_stage := Some Stage.handoff; u_intent := None;
              u_conversation_history_summary := None;
              u_handoff_reason := None;
              u_has_greeted := None; u_needs_human_handoff := Some true;
              u_error_count := None |}
  end.

End LateNodes.

(** ** The HTTP wrapper: [bot_api.py] *)

Module Api.

Record lock_info : Type := {
  locked_at : str;
  locked_by : str;
  reason : str
}.

(** [locked_conversations]: a dictionary, in insertion order. *)
Definition locks := list (str * lock_info).

Fixpoint lookup (user_id : str) (L : locks) : option lock_info :=
  match L with
  | [] => None
  | (u, info) :: L' => if str_eqb u user_id then Some info else lookup user_id L'
  end.

(** [locked_conversations[user_id] = info]: a key already there keeps its
    place. *)
Fixpoint assign (user_id : str) (info : lock_info) (L : locks) : locks :=
  match L with
  | [] => [(user_id, info)]
  | (u, i) :: L' =>
      if str_eqb u user_id then (u, info) :: L'
      else (u, i) :: assign user_id info L'
  end.

(** [del locked_conversations[user_id]] *)
Fixpoint remove (user_id : str) (L : locks) : locks :=
  match L with
  | [] => []
  | (u, i) :: L' =>
      if str_eqb u user_id then L' else (u, i) :: remove user_id L'
  end.

(** [now_iso] is [datetime.now().isoformat()]. *)
Definition lock_conversation (L : locks) (user_id now_iso : str) : locks :=
  assign user_id
    {| locked_at := now_iso; locked_by := s2l "wife";
       reason := s2l "wife_interrupted" |} L.

Inductive unlock_status : Type :=
| unlocked (was_locked_at : str)
| not_locked.

Definition unlock_conversation (L : locks) (user_id : str)
  : locks * unlock_status :=
  match lookup user_id L with
  | Some info => (remove user_id L, unlocked (locked_at info))
  | None => (L, not_locked)
  end.

Record chat_reply : Type := {
  status : str;
  reply : option str;
  needs_handoff : bool;
  products : option (list Products.found);
  requirements_summary : option str;
  customer_requirements : option Bot.customer_requirements;
  handoff_reason : option str;
  locked : bool;
  lock : option lock_info
}.

(** The [/chat] endpoint; [state] is the checkpoint of the customer. *)
Definition chat (L : locks) (W : World) (state : BotState)
    (user_id message : str) : chat_reply :=
  match lookup user_id L with
  | Some info =>
      {| status := s2l "locked"; reply := None; needs_handoff := false;
         products := None; requirements_summary := None;
         customer_requirements := None; handoff_reason := None;
         locked := true; lock := Some info |}
  | None =>
      let response := Bot.chat W state user_id message in
      {| status := s2l "success";
         reply := Bot.reply response;
         needs_handoff := Bot.needs_handoff response;
         products := Bot.products response;
         requirements_summary := Bot.requirements_summary response;
         customer_requirements := Bot.customer response;
         handoff_reason := Bot.handoff_reason_text response;
         locked := false; lock := None |}
  end.

(** [/locked_conversations] *)
Definition get_locked_conversations (L : locks)
  : list (str * lock_info) * nat :=
  (L, length L).

End Api.

(** ** Predicates used by the properties below *)



(** The record of a message that holds no requirement. *)
Definition nothing_extracted : ExtractedRequirements :=
  {| quantity := None; budget_per_piece := None; timeline := None;
     location := None; preferences := []; needs_confirmation := false |}.


(** An update adds at most one bot message and never withdraws the
    greeting. *)
Definition tame (u : Update) : Prop :=
  (u_messages u = [] \/ exists c, u_messages u = [AIMessage c])
  /\ u_has_greeted u <> Some false.


(** The stages a conversation can be at between two turns. *)
Definition resting (st : BotState) : Prop :=
  match current_stage st with
  | None
  | Some Stage.intent_classification
  | Some Stage.requirement_extraction
  | Some Stage.awaiting_confirmation
  | Some Stage.handoff => True
  | Some _ => False
  end.

(** What the classifier can return in a conversation of the graph that is
    not handed off: a hand-off, or a move to validation or to requirement
    extraction that leaves the flag alone and keeps the record. *)
Definition classifier_step (st : BotState) (u : Update) : Prop :=
  (u_current_stage u = Some Stage.handoff
   /\ u_needs_human_handoff u = Some true
   /\ u_requirements u = None)
  \/ ((u_current_stage u = Some Stage.validation
       \/ u_current_stage u = Some Stage.requirement_extraction)
      /\ u_needs_human_handoff u = None
      /\ (u_requirements u = None
          \/ exists f : ExtractedRequirements -> ExtractedRequirements,
               u_requirements u = Some (option_map f (requirements st)))).

(** ** More sample data *)

Module Cases.


(** The state a turn leaves (the old one when the turn raises). *)
Definition state_after (W : World) (st : BotState) (message : str) : BotState :=
  match Graph.invoke W st (s2l "user") message with
  | Some (st', _) => st'
  | None => st
  end.

Definition greeted : BotState :=
  state_after Demo.world new_conversation (s2l "Hi").

(** Greeted, then the two bare numbers: the bot waits for a confirmation. *)
Definition awaiting : BotState :=
  state_after Demo.world greeted Demo.ambiguous_numbers.

Definition awaiting_record : ExtractedRequirements :=
  {| quantity := Some 50%Z; budget_per_piece := Some 100%Z;
     timeline := Some (s2l "00" ++ nl :: s2l "feb");
     location := Some (s2l "Chennai"); preferences := [];
     needs_confirmation := true |}.

(** Greeted, then a complete, keyword-anchored message: products shown. *)
Definition shown : BotState :=
  state_after Demo.world greeted Demo.anchored_message.

Definition two_products : list Products.found :=
  [ {| Products.name := s2l "Brass lamp"; Products.price := 90;
       Products.category := s2l "Traditional"; Products.min_order := 10;
       Products.image_url := []; Products.relevance_score := 102 |};
    {| Products.name := s2l "Jute bag"; Products.price := 40;
       Products.category := s2l "Eco-Friendly"; Products.min_order := 25;
       Products.image_url := []; Products.relevance_score := 112 |} ].

Definition choosing (message : str) : BotState :=
  {| messages := [HumanMessage message];
     user_id := s2l "user";
     requirements := Some awaiting_record;
     validation := None;
     recommended_products := Some two_products;
     selected_product := None;
     current_stage := Some Stage.product_selection;
     intent := None; conversation_history_summary := None;
     handoff_reason := None; has_greeted := true;
     needs_human_handoff := false; error_count := 0 |}.

Definition one_lock : Api.locks :=
  Api.lock_conversation [] (s2l "919800000001") (s2l "2026-01-05T10:00:00").

End Cases.

(** * Properties *)

Import Nodes.

(** ** Pattern matcher: groups *)

Section Captures.

Variables (A : Type) (g : nat).




End Captures.




(** ** Field extractor *)

Section ExtractFacts.

Variable message : str.

Let msg_lower := lower message.
Let date_numbers := snd (step_timeline msg_lower).
Let unclaimed := non_date_numbers message date_numbers.

(** The extractor written in terms of its steps. *)
Lemma extract_steps :
  extract_customer_requirements message =
  let kq := keyword_quantity msg_lower in
  let kb := keyword_budget msg_lower in
  let qb := step_position unclaimed (kq, kb) in
  {| quantity := fst qb;
     budget_per_piece := snd qb;
     timeline := fst (step_timeline msg_lower);
     location := step_location message msg_lower;
     preferences := step_preferences msg_lower;
     needs_confirmation :=
       negb (is_none (fst qb)) && negb (is_none (snd qb))
       && negb (negb (is_none kq)) && negb (negb (is_none kb)) |}.
Proof.
  unfold extract_customer_requirements, unclaimed, date_numbers, msg_lower.
  destruct (step_timeline (lower message)) as [tl dn]; cbn [fst snd].
  match goal with
  | |- context [step_position ?a ?b] => destruct (step_position a b) as [q b']
  end; reflexivity.
Qed.


(** C5, as the code has it: the positional step takes its numbers from
    everything the date step left unclaimed, whether or not a keyword step
    already used one of them.  With the quantity set by keyword and the
    budget still empty, the budget is the only unclaimed number or, when
    there are several, the second; with the budget set by keyword and the
    quantity empty, the quantity is the first unclaimed number. *)
Theorem positional_step_ignores_keyword_use :
  (forall q n, keyword_quantity msg_lower = Some q ->
     keyword_budget msg_lower = None -> unclaimed = [n] ->
     quantity (extract_customer_requirements message) = Some q
     /\ budget_per_piece (extract_customer_requirements message) = Some n)
  /\ (forall q n0 n1 rest, keyword_quantity msg_lower = Some q ->
        keyword_budget msg_lower = None -> unclaimed = n0 :: n1 :: rest ->
        quantity (extract_customer_requirements message) = Some q
        /\ budget_per_piece (extract_customer_requirements message) = Some n1)
  /\ (forall b n0 rest, keyword_quantity msg_lower = None ->
        keyword_budget msg_lower = Some b -> unclaimed = n0 :: rest ->
        quantity (extract_customer_requirements message) = Some n0
        /\ budget_per_piece (extract_customer_requirements message) = Some b).
Proof.
  repeat split; intros; rewrite extract_steps; cbv zeta;
    repeat match goal with
           | H : _ = _ |- _ => rewrite H; clear H
           end; simpl; try reflexivity;
    destruct rest; reflexivity.
Qed.

End ExtractFacts.


(** The date step claims numbers by their digits: in "22 100 Feb 22" the
    date takes "22", and with it the first number of the message. *)
Example same_digits_are_claimed_together :
  all_numbers (s2l "22 100 Feb 22") = [s2l "22"; s2l "100"; s2l "22"]
  /\ non_date_numbers (s2l "22 100 Feb 22")
       (snd (step_timeline (lower (s2l "22 100 Feb 22")))) = [100%Z]
  /\ quantity (extract_customer_requirements (s2l "22 100 Feb 22")) = Some 100%Z
  /\ budget_per_piece (extract_customer_requirements (s2l "22 100 Feb 22")) = None.
Proof. vm_compute; repeat split; reflexivity. Qed.

(** C5 as stated fails: in "50 pieces" the keyword step takes 50 as the
    quantity, and the positional step gives the same, only, number to the
    budget. *)
Lemma keyword_number_reused_for_budget :
  keyword_quantity (lower (s2l "50 pieces")) = Some 50%Z
  /\ keyword_budget (lower (s2l "50 pieces")) = None
  /\ all_numbers (s2l "50 pieces") = [s2l "50"]
  /\ quantity (extract_customer_requirements (s2l "50 pieces")) = Some 50%Z
  /\ budget_per_piece (extract_customer_requirements (s2l "50 pieces"))
     = Some 50%Z.
Proof. vm_compute. repeat split; reflexivity. Qed.

Lemma positional_step_ignores_keyword_use_witness :
  quantity (extract_customer_requirements (s2l "100 for 50 pieces")) = Some 50%Z
  /\ budget_per_piece (extract_customer_requirements (s2l "100 for 50 pieces"))
     = Some 50%Z.
Proof.
  apply (proj1 (proj2 (@positional_step_ignores_keyword_use
                         (s2l "100 for 50 pieces")))
           50%Z 100%Z 50%Z []); vm_compute; reflexivity.
Defined.

(** *** The timeline is taken from the lower-cased message *)

Lemma lower_char_idem (c : ascii) : lower_char (lower_char c) = lower_char c.
Proof.
  destruct c as [[] [] [] [] [] [] [] []]; vm_compute; reflexivity.
Qed.

Lemma lower_idem (s : str) : lower (lower s) = lower s.
Proof.
  unfold lower; rewrite map_map.
  apply map_ext; intro c; apply lower_char_idem.
Qed.

Lemma lower_slice (s : str) (i j : nat) : lower (slice s i j) = slice (lower s) i j.
Proof.
  unfold lower, slice.
  rewrite <- firstn_map, <- skipn_map; reflexivity.
Qed.

Lemma slice_infix (s : str) (i j : nat) :
  exists pre post, s = pre ++ slice s i j ++ post.
Proof.
  exists (firstn i s), (skipn (j - i) (skipn i s)).
  unfold slice.
  rewrite (firstn_skipn (j - i) (skipn i s)).
  symmetry; apply firstn_skipn.
Qed.

Lemma last_cons_default {T : Type} (a d : T) (l : list T) :
  last (a :: l) d = last l a.
Proof.
  revert a d; induction l as [|b l IH]; intros a d; [reflexivity|].
  change (last (a :: b :: l) d) with (last (b :: l) d).
  rewrite (IH b d), (IH b a); reflexivity.
Qed.

Lemma last_app_default {T : Type} (l1 l2 : list T) (d : T) :
  last (l1 ++ l2) d = last l2 (last l1 d).
Proof.
  revert d; induction l1 as [|a l1 IH]; intro d; [reflexivity|].
  rewrite <- app_comm_cons, !last_cons_default; apply IH.
Qed.

Section TimelineFold.

Variable msg_lower : str.

Let text (x : rmatch) : option str := Some (group0 msg_lower x).

Lemma date_matches_fold (ngroups : nat) (xs : list rmatch)
    (acc : option str * list str) :
  fst (fold_left (date_match_step msg_lower ngroups) xs acc)
  = last (map text xs) (fst acc).
Proof.
  revert acc; induction xs as [|x xs IH]; intro acc; [reflexivity|].
  cbn [fold_left map]; rewrite IH, last_cons_default; reflexivity.
Qed.

Lemma date_patterns_fold (ps : list (regex * nat))
    (acc : option str * list str) :
  fst (fold_left (date_pattern_step msg_lower) ps acc)
  = last (map text (flat_map (fun pn => finditer (fst pn) msg_lower) ps))
         (fst acc).
Proof.
  revert acc; induction ps as [|pn ps IH]; intro acc; [reflexivity|].
  cbn [fold_left flat_map]; rewrite IH.
  unfold date_pattern_step.
  rewrite date_matches_fold, map_app, last_app_default; reflexivity.
Qed.

(** The last date match, when there is one, decides the timeline;
    otherwise the keyword table does. *)
Lemma step_timeline_last :
  fst (step_timeline msg_lower)
  = last (map text (date_matches msg_lower))
         (timeline_keyword timeline_map msg_lower).
Proof.
  unfold step_timeline, date_matches; apply date_patterns_fold.
Qed.

End TimelineFold.

(** C2, as the code has it: when a date pattern matches, the timeline is
    the text of the last such match, a piece of the lower-cased message;
    the casing of the original message is lost. *)
Theorem timeline_is_lowercased_match (message : str) :
  date_matches (lower message) <> [] ->
  exists front x,
    date_matches (lower message) = front ++ [x]
    /\ timeline (extract_customer_requirements message)
       = Some (group0 (lower message) x)
    /\ (exists pre post,
          lower message = pre ++ group0 (lower message) x ++ post)
    /\ lower (group0 (lower message) x) = group0 (lower message) x.
Proof.
  intro Hne.
  destruct (exists_last Hne) as [front [x Hx]].
  exists front, x; split; [exact Hx|]; split; [|split].
  - rewrite extract_steps; cbn [timeline].
    rewrite step_timeline_last, Hx, map_app, last_app_default; reflexivity.
  - apply slice_infix.
  - unfold group0; rewrite lower_slice, lower_idem; reflexivity.
Qed.

Lemma timeline_is_lowercased_match_witness :
  exists front x,
    date_matches (lower (s2l "Feb 22")) = front ++ [x]
    /\ timeline (extract_customer_requirements (s2l "Feb 22"))
       = Some (group0 (lower (s2l "Feb 22")) x)
    /\ (exists pre post,
          lower (s2l "Feb 22")
          = pre ++ group0 (lower (s2l "Feb 22")) x ++ post)
    /\ lower (group0 (lower (s2l "Feb 22")) x)
       = group0 (lower (s2l "Feb 22")) x.
Proof.
  apply (timeline_is_lowercased_match (s2l "Feb 22")).
  vm_compute; discriminate.
Defined.

Example timeline_feb_22 :
  timeline (extract_customer_requirements (s2l "Feb 22")) = Some (s2l "feb 22").
Proof. vm_compute; reflexivity. Qed.

(** C2 as stated fails on its own example: the month-first pattern finds
    "feb 22" in the lower-cased text, then the day-first pattern finds
    "45", a line break and "feb", and the last match is the one stored. *)
Lemma timeline_not_verbatim :
  timeline (extract_customer_requirements Demo.clear_numbers)
  = Some (s2l "45" ++ nl :: s2l "feb")
  /\ timeline (extract_customer_requirements Demo.clear_numbers)
     <> Some (s2l "Feb 22").
Proof. vm_compute; split; [reflexivity | discriminate]. Qed.

(** What the extractor returns for the first test message of the source. *)
Example clear_numbers_extraction :
  let r := extract_customer_requirements Demo.clear_numbers in
  quantity r = Some 500%Z /\ budget_per_piece r = None
  /\ location r = Some (s2l "Chennai") /\ needs_confirmation r = false.
Proof. vm_compute; repeat split; reflexivity. Qed.

(** ** Requirement accumulator *)

Lemma set_quantity_keeps (v : option Z) (r : ExtractedRequirements) :
  budget_per_piece (set_quantity v r) = budget_per_piece r
  /\ timeline (set_quantity v r) = timeline r
  /\ location (set_quantity v r) = location r
  /\ preferences (set_quantity v r) = preferences r
  /\ needs_confirmation (set_quantity v r) = needs_confirmation r.
Proof. repeat split; reflexivity. Qed.

Lemma set_budget_keeps (v : option Z) (r : ExtractedRequirements) :
  quantity (set_budget_per_piece v r) = quantity r
  /\ timeline (set_budget_per_piece v r) = timeline r
  /\ location (set_budget_per_piece v r) = location r
  /\ preferences (set_budget_per_piece v r) = preferences r
  /\ needs_confirmation (set_budget_per_piece v r) = needs_confirmation r.
Proof. repeat split; reflexivity. Qed.



Example budget_45_after_quantity_500 :
  option_map budget_per_piece
    (requirements_after (Demo.quantity_only_state (s2l "45")))
  = Some (Some 45%Z).
Proof. vm_compute; reflexivity. Qed.





(** ** Dialogue controller *)

Lemma str_eqb_eq (a b : str) : str_eqb a b = true -> a = b.
Proof.
  unfold str_eqb; destruct (list_eq_dec ascii_dec a b); [trivial|discriminate].
Qed.

Lemma human_contents_app (ms1 ms2 : list Message) :
  human_contents (ms1 ++ ms2) = human_contents ms1 ++ human_contents ms2.
Proof.
  induction ms1 as [|[c|c] ms1 IH]; simpl; [reflexivity| |assumption].
  rewrite IH; reflexivity.
Qed.

(** The message of the turn is the last user message of the state the
    nodes see. *)
Lemma last_human_receive (st : BotState) (uid message : str) :
  last_human (Graph.receive st uid message) = Some message.
Proof.
  unfold last_human, Graph.receive; cbn [messages].
  rewrite human_contents_app, map_app, last_app_default; reflexivity.
Qed.

Lemma apply_no_update (st : BotState) : apply_update st no_update = st.
Proof.
  destruct st; unfold apply_update; cbn.
  rewrite app_nil_r; reflexivity.
Qed.

(** Priority check: a conversation already handed off gets no update. *)
Lemma classifier_silent_after_handoff (W : World) (st : BotState) :
  needs_human_handoff st = true ->
  intent_classifier_node W st = Some no_update.
Proof.
  intro H; unfold intent_classifier_node; rewrite H; reflexivity.
Qed.

Lemma classifier_image (W : World) (st : BotState) (last_msg : str) :
  needs_human_handoff st = false ->
  last_human st = Some last_msg ->
  contains image_marker last_msg = true ->
  intent_classifier_node W st = Some (handoff_update "image_sent").
Proof.
  intros Hf Hl Hi; unfold intent_classifier_node.
  rewrite Hf, Hl, Hi; reflexivity.
Qed.

Lemma classifier_quick_query (W : World) (st : BotState) (last_msg : str) :
  needs_human_handoff st = false ->
  last_human st = Some last_msg ->
  contains image_marker last_msg = false ->
  is_quick_query last_msg (strip (lower last_msg)) = true ->
  intent_classifier_node W st = Some (handoff_update "quick_price_query").
Proof.
  intros Hf Hl Hi Hq; unfold intent_classifier_node.
  rewrite Hf, Hl, Hi, Hq; reflexivity.
Qed.

(** A turn whose classifier hands off ends right after the classifier. *)
Lemma invoke_handoff (W : World) (st : BotState) (uid message : str)
    (reason : string) :
  Graph.entry_router (Graph.receive st uid message) = Graph.to_classify_intent ->
  intent_classifier_node W (Graph.receive st uid message)
  = Some (handoff_update reason) ->
  Graph.invoke W st uid message
  = Some (apply_update (Graph.receive st uid message) (handoff_update reason),
          [Graph.n_classify_intent]).
Proof.
  intros He Hc; unfold Graph.invoke.
  rewrite He, Hc; reflexivity.
Qed.

Lemma handoff_update_effect (st : BotState) (reason : string) :
  let st' := apply_update st (handoff_update reason) in
  current_stage st' = Some Stage.handoff
  /\ needs_human_handoff st' = true
  /\ handoff_reason st' = Some (s2l reason)
  /\ messages st' = messages st
  /\ requirements st' = requirements st.
Proof.
  cbn; rewrite app_nil_r; repeat split; reflexivity.
Qed.

(** The reply of [chat] for a turn that hands off without a bot message. *)
Lemma chat_silent_handoff (W : World) (st : BotState) (uid message : str)
    (reason : string) (ns : list Graph.node) :
  Graph.invoke W st uid message
  = Some (apply_update (Graph.receive st uid message) (handoff_update reason), ns) ->
  Bot.chat W st uid message
  = Bot.silent_handoff
      (apply_update (Graph.receive st uid message) (handoff_update reason))
      message.
Proof.
  intro Hrun; unfold Bot.chat, Bot.chat_body.
  rewrite Hrun; cbn [bind fst].
  replace (length (messages (apply_update (Graph.receive st uid message)
                               (handoff_update reason)))
           - length (messages st)) with 1.
  - reflexivity.
  - cbn [messages apply_update Graph.receive handoff_update u_messages].
    rewrite !length_app; simpl; lia.
Qed.

(** C7, as the code has it: in every conversation that is not already
    handed off, a brand-new one included, a message containing the image
    marker ends the turn in the hand-off stage with the flag set and the
    reason "image_sent"; only the classifier runs, no message is added
    after the customer's, and [chat] replies nothing. *)
Theorem image_forces_handoff (W : World) (st : BotState) (uid message : str) :
  needs_human_handoff st = false ->
  contains image_marker message = true ->
  exists st',
    Graph.invoke W st uid message = Some (st', [Graph.n_classify_intent])
    /\ current_stage st' = Some Stage.handoff
    /\ needs_human_handoff st' = true
    /\ handoff_reason st' = Some (s2l "image_sent")
    /\ messages st' = messages st ++ [HumanMessage message]
    /\ Bot.reply (Bot.chat W st uid message) = None
    /\ Bot.needs_handoff (Bot.chat W st uid message) = true.
Proof.
  intros Hf Hi.
  assert (Hrun : Graph.invoke W st uid message
                 = Some (apply_update (Graph.receive st uid message)
                           (handoff_update "image_sent"),
                         [Graph.n_classify_intent])).
  { apply invoke_handoff.
    - unfold Graph.entry_router.
      rewrite last_human_receive, Hi; reflexivity.
    - apply classifier_image with (last_msg := message);
        [exact Hf | apply last_human_receive | exact Hi]. }
  eexists; split; [exact Hrun|].
  destruct (handoff_update_effect (Graph.receive st uid message) "image_sent")
    as [H1 [H2 [H3 [H4 _]]]].
  rewrite (chat_silent_handoff W Hrun).
  repeat split; assumption || reflexivity.
Qed.

Lemma image_forces_handoff_witness :
  exists st',
    Graph.invoke Demo.world new_conversation (s2l "user") (s2l "[IMAGE_SENT]")
    = Some (st', [Graph.n_classify_intent])
    /\ current_stage st' = Some Stage.handoff
    /\ needs_human_handoff st' = true
    /\ handoff_reason st' = Some (s2l "image_sent")
    /\ messages st' = messages new_conversation ++ [HumanMessage (s2l "[IMAGE_SENT]")]
    /\ Bot.reply (Bot.chat Demo.world new_conversation (s2l "user")
                    (s2l "[IMAGE_SENT]")) = None
    /\ Bot.needs_handoff (Bot.chat Demo.world new_conversation (s2l "user")
                            (s2l "[IMAGE_SENT]")) = true.
Proof.
  apply (@image_forces_handoff Demo.world new_conversation (s2l "user")
           (s2l "[IMAGE_SENT]")); reflexivity.
Defined.

(** C7 as stated fails for a conversation that is already handed off: the
    image message changes nothing, and the reason stays "products_shown". *)
Lemma image_after_handoff_keeps_reason :
  option_map (fun r => handoff_reason (fst r))
    (Graph.invoke Demo.world Demo.handed_off (s2l "user") (s2l "[IMAGE_SENT]"))
  = Some (Some (s2l "products_shown"))
  /\ option_map (fun r => handoff_reason (fst r))
       (Graph.invoke Demo.world Demo.handed_off (s2l "user") (s2l "[IMAGE_SENT]"))
     <> Some (Some (s2l "image_sent")).
Proof. vm_compute; split; [reflexivity | discriminate]. Qed.

(** C10: "need 50 red apples" has 18 characters and is no price query,
    yet "pp" occurs in it, inside "apples", and no other quick-query
    phrase does; in every conversation not already handed off the turn ends
    in the hand-off stage with the reason "quick_price_query", after the
    classifier alone: the extraction node does not run and the record is
    untouched. *)
Theorem apples_is_a_quick_price_query (W : World) (st : BotState) (uid : str) :
  needs_human_handoff st = false ->
  let message := s2l "need 50 red apples" in
  py_len message = 18
  /\ contains (s2l "pp") (strip (lower message)) = true
  /\ filter (fun query => contains query (strip (lower message)))
            quick_price_queries = [s2l "pp"]
  /\ exists st',
       Graph.invoke W st uid message = Some (st', [Graph.n_classify_intent])
       /\ current_stage st' = Some Stage.handoff
       /\ needs_human_handoff st' = true
       /\ handoff_reason st' = Some (s2l "quick_price_query")
       /\ requirements st' = requirements st
       /\ messages st' = messages st ++ [HumanMessage message].
Proof.
  intros Hf message.
  split; [reflexivity|]; split; [reflexivity|]; split; [reflexivity|].
  assert (Hrun : Graph.invoke W st uid message
                 = Some (apply_update (Graph.receive st uid message)
                           (handoff_update "quick_price_query"),
                         [Graph.n_classify_intent])).
  { apply invoke_handoff.
    - unfold Graph.entry_router.
      rewrite last_human_receive; reflexivity.
    - apply classifier_quick_query with (last_msg := message);
        [exact Hf | apply last_human_receive | reflexivity | reflexivity]. }
  eexists; split; [exact Hrun|].
  destruct (handoff_update_effect (Graph.receive st uid message)
              "quick_price_query") as [H1 [H2 [H3 [H4 H5]]]].
  repeat split; assumption.
Qed.

Lemma apples_is_a_quick_price_query_witness :
  exists st',
    Graph.invoke Demo.world new_conversation (s2l "user")
      (s2l "need 50 red apples")
    = Some (st', [Graph.n_classify_intent])
    /\ current_stage st' = Some Stage.handoff
    /\ needs_human_handoff st' = true
    /\ handoff_reason st' = Some (s2l "quick_price_query")
    /\ requirements st' = requirements new_conversation
    /\ messages st'
       = messages new_conversation ++ [HumanMessage (s2l "need 50 red apples")].
Proof.
  apply (@apples_is_a_quick_price_query Demo.world new_conversation
           (s2l "user") eq_refl).
Defined.

(** *** Greetings *)

Lemma contains_head (a : ascii) (p s : str) :
  contains (a :: p) s = true -> In a s.
Proof.
  induction s as [|b s IH]; simpl; [discriminate|].
  destruct (Ascii.eqb a b) eqn:E; simpl.
  - intros _; left; symmetry; apply Ascii.eqb_eq; exact E.
  - intro H; right; apply IH; exact H.
Qed.

Lemma lstrip_keeps (c : ascii) (s : str) :
  is_space c = false -> In c s -> In c (lstrip s).
Proof.
  intro Hc; induction s as [|a s IH]; simpl; [trivial|].
  destruct (is_space a) eqn:Ha; intros [->|Hin].
  - congruence.
  - apply IH; exact Hin.
  - left; reflexivity.
  - right; exact Hin.
Qed.

Lemma strip_keeps (c : ascii) (s : str) :
  is_space c = false -> In c s -> In c (strip s).
Proof.
  intros Hc Hin; unfold strip, rstrip.
  apply -> in_rev; apply lstrip_keeps; [exact Hc|].
  apply -> in_rev; apply lstrip_keeps; assumption.
Qed.

Lemma greeting_is_keyword (msg_lower : str) :
  is_greeting msg_lower = true -> In msg_lower greeting_keywords.
Proof.
  unfold is_greeting; intro H.
  apply existsb_exists in H; destruct H as [k [Hin Heq]].
  apply str_eqb_eq in Heq; subst; exact Hin.
Qed.

Ltac each_keyword H :=
  repeat (destruct H as [H|H]; [subst; vm_compute; try reflexivity|]);
  try contradiction.

(** No greeting keyword holds a quick price query... *)
Lemma greeting_not_quick_query (msg_lower : str) :
  In msg_lower greeting_keywords ->
  existsb (fun query => contains query msg_lower) quick_price_queries = false.
Proof. intro H; each_keyword H. Qed.

(** ... and none holds an opening bracket, so none comes with an image. *)
Lemma greeting_no_bracket (msg_lower : str) :
  In msg_lower greeting_keywords -> ~ In "["%char msg_lower.
Proof.
  intros H Hin.
  assert (E : existsb (Ascii.eqb "["%char) msg_lower = true).
  { apply existsb_exists; exists "["%char; split;
      [exact Hin | apply Ascii.eqb_refl]. }
  revert E; clear Hin.
  repeat (destruct H as [H|H]; [subst; vm_compute; discriminate|]).
  contradiction.
Qed.

Lemma greeting_no_image (last_msg : str) :
  is_greeting (strip (lower last_msg)) = true ->
  contains image_marker last_msg = false.
Proof.
  intro Hg; apply greeting_is_keyword in Hg.
  destruct (contains image_marker last_msg) eqn:Hc; [|reflexivity].
  exfalso; apply (greeting_no_bracket Hg).
  apply strip_keeps; [reflexivity|].
  apply contains_head in Hc.
  change "["%char with (lower_char "["%char).
  unfold lower; apply in_map; exact Hc.
Qed.

(** C3, as the code has it: with the stage at hand-off, a greeting resets
    the conversation only when the hand-off flag is not set; the classifier
    then clears the record, the products, the selection and the validation
    and restarts at requirement extraction.  With the flag set the
    classifier returns nothing and the state stays as it is. *)
Theorem greeting_in_handoff_stage (W : World) (st : BotState) (last_msg : str) :
  current_stage st = Some Stage.handoff ->
  last_human st = Some last_msg ->
  is_greeting (strip (lower last_msg)) = true ->
  (needs_human_handoff st = false ->
     intent_classifier_node W st = Some reset_after_handoff
     /\ current_stage (apply_update st reset_after_handoff)
        = Some Stage.requirement_extraction
     /\ requirements (apply_update st reset_after_handoff) = None
     /\ recommended_products (apply_update st reset_after_handoff) = None
     /\ selected_product (apply_update st reset_after_handoff) = None
     /\ validation (apply_update st reset_after_handoff) = None
     /\ needs_human_handoff (apply_update st reset_after_handoff) = false
     /\ handoff_reason (apply_update st reset_after_handoff) = None)
  /\ (needs_human_handoff st = true ->
        intent_classifier_node W st = Some no_update
        /\ apply_update st no_update = st).
Proof.
  intros Hs Hl Hg; split; intro Hf.
  - split; [|repeat split; reflexivity].
    unfold intent_classifier_node.
    rewrite Hf, Hl, (greeting_no_image _ Hg).
    unfold is_quick_query.
    rewrite (greeting_not_quick_query (greeting_is_keyword _ Hg)), andb_false_r.
    rewrite Hs, Hg; reflexivity.
  - split; [apply classifier_silent_after_handoff; exact Hf
           | apply apply_no_update].
Qed.

Lemma greeting_in_handoff_stage_witness :
  intent_classifier_node Demo.world
    (Graph.receive Demo.handed_off (s2l "user") (s2l "hi"))
  = Some no_update
  /\ apply_update (Graph.receive Demo.handed_off (s2l "user") (s2l "hi"))
       no_update
     = Graph.receive Demo.handed_off (s2l "user") (s2l "hi").
Proof.
  apply (proj2 (@greeting_in_handoff_stage Demo.world
                  (Graph.receive Demo.handed_off (s2l "user") (s2l "hi"))
                  (s2l "hi") eq_refl eq_refl eq_refl)).
  reflexivity.
Defined.

(** C3 as stated fails: after a hand-off the flag is set, and the greeting
    "hi" leaves the stage at hand-off and the record in place. *)
Lemma greeting_after_handoff_stays_silent :
  current_stage Demo.handed_off = Some Stage.handoff
  /\ option_map (fun r => current_stage (fst r))
       (Graph.invoke Demo.world Demo.handed_off (s2l "user") (s2l "hi"))
     = Some (Some Stage.handoff)
  /\ option_map (fun r => requirements (fst r))
       (Graph.invoke Demo.world Demo.handed_off (s2l "user") (s2l "hi"))
     = Some (requirements Demo.handed_off)
  /\ requirements Demo.handed_off <> None
  /\ Bot.reply (Bot.chat Demo.world Demo.handed_off (s2l "user") (s2l "hi"))
     = None.
Proof. vm_compute; repeat split; try reflexivity; discriminate. Qed.

(** ** Timeline resolver *)

(** Whatever is raised inside the [try] block leads to the default. *)
Lemma try_block_failure_defaults (C : Clock) (timeline : str) :
  Timeline.config_lookup Timeline.timeline_config (lower timeline) = None ->
  Timeline.parse_branch C (now C) timeline = None ->
  Timeline.calculate_timeline_urgency C timeline = default_timeline C.
Proof.
  intros Hcfg Hfail; unfold Timeline.calculate_timeline_urgency.
  rewrite Hcfg, Hfail; reflexivity.
Qed.

(** C8: for a timeline that is no canonical code and that the date parser
    rejects, the resolver returns the default: delivery in 7 days, medium
    urgency, no rush. *)
Theorem unparseable_timeline_defaults (C : Clock) (timeline : str) :
  Timeline.config_lookup Timeline.timeline_config (lower timeline) = None ->
  (forall d, parse C timeline d = None) ->
  Timeline.calculate_timeline_urgency C timeline = default_timeline C.
Proof.
  intros Hcfg Hparse; apply try_block_failure_defaults; [exact Hcfg|].
  unfold Timeline.parse_branch.
  destruct (replace_year C (now C) (dt_year C (now C))) as [d|]; cbn;
    [rewrite Hparse|]; reflexivity.
Qed.

Lemma unparseable_timeline_defaults_witness :
  Timeline.calculate_timeline_urgency Demo.day_clock (s2l "whenever")
  = default_timeline Demo.day_clock.
Proof.
  apply (@unparseable_timeline_defaults Demo.day_clock (s2l "whenever"));
    [vm_compute; reflexivity | intro d; reflexivity].
Defined.

(** The validation node raises nothing once the record has a timeline,
    whatever the timeline says. *)
Lemma validation_node_returns (W : World) (st : BotState)
    (req : ExtractedRequirements) (tl : str) :
  requirements st = Some req -> timeline req = Some tl ->
  exists u, validation_node W st = Some u
            /\ u_current_stage u = Some Stage.product_search.
Proof.
  intros Hr Ht; unfold validation_node; rewrite Hr; cbn; rewrite Ht; cbn.
  eexists; split; reflexivity.
Qed.

Example asap_is_critical (C : Clock) :
  Timeline.calculate_timeline_urgency C (s2l "asap")
  = {| Timeline.delivery_date := strftime C (add_days C (now C) 1);
       Timeline.days_remaining := 1;
       Timeline.urgency_level := critical;
       Timeline.is_rush_order := true |}.
Proof. reflexivity. Qed.

(** ** Product matcher *)

Section Scores.

Import Products.

Variables (budget_max quantity : Z) (preferences : list str).

Lemma insert_desc_in (f x : found) (l : list found) :
  In f (insert_desc x l) <-> f = x \/ In f l.
Proof.
  induction l as [|y l IH]; simpl.
  - intuition congruence.
  - destruct (relevance_score y <? relevance_score x)%Z; simpl;
      rewrite ?IH; intuition congruence.
Qed.

Lemma sort_desc_in (f : found) (l : list found) :
  In f (sort_desc l) <-> In f l.
Proof.
  unfold sort_desc.
  assert (H : forall acc, In f (fold_left (fun a x => insert_desc x a) l acc)
                          <-> In f l \/ In f acc).
  { induction l as [|x l IH]; intro acc; simpl; [tauto|].
    rewrite IH, insert_desc_in; intuition congruence. }
  rewrite H; simpl; tauto.
Qed.

Lemma score_product_formula (p : product) (f : found) :
  score_product budget_max quantity preferences p = Some (Some f) ->
  exists bonus,
    price_bonus (price f) budget_max = Some bonus
    /\ relevance_score f
       = (100 + eco_bonus preferences (category f)
          + traditional_bonus preferences (category f)
          + premium_bonus preferences (category f) + bonus)%Z.
Proof.
  unfold score_product.
  destruct (applicable_price budget_max quantity (pricing p) None)
    as [[a|]|]; cbn; try discriminate.
  destruct (budget_max <? a)%Z; [discriminate|].
  destruct (price_bonus a budget_max) as [bonus|] eqn:Hb; cbn; [|discriminate].
  intro H; injection H as <-; cbn.
  exists bonus; split; [exact Hb | reflexivity].
Qed.

Lemma score_all_formula (ps : list product) (fs : list found) (f : found) :
  score_all budget_max quantity preferences ps = Some fs ->
  In f fs ->
  exists p, In p ps
            /\ score_product budget_max quantity preferences p = Some (Some f).
Proof.
  revert fs; induction ps as [|p ps IH]; intros fs; simpl.
  - intro H; injection H as <-; contradiction.
  - destruct (score_product budget_max quantity preferences p) as [o|] eqn:Hp;
      cbn; [|discriminate].
    destruct (score_all budget_max quantity preferences ps) as [rest|];
      cbn; [|discriminate].
    intro H; injection H as <-.
    destruct o as [f0|]; simpl.
    + intros [->|Hin].
      * exists p; split; [left; reflexivity | exact Hp].
      * destruct (IH rest eq_refl Hin) as [p' [Hp' Hs]].
        exists p'; split; [right; exact Hp' | exact Hs].
    + intro Hin; destruct (IH rest eq_refl Hin) as [p' [Hp' Hs]].
      exists p'; split; [right; exact Hp' | exact Hs].
Qed.

(** C9, as the code has it: the score of every returned product is 100,
    plus 30, 25 and 20 for the eco, traditional and premium matches, plus
    the price bonus [int((1 - price / budget_max) * 20)], which cuts the
    fraction off instead of rounding to the nearest integer. *)
Theorem relevance_score_truncates (rows : list row) (fs : list found)
    (f : found) :
  search_matching_products rows budget_max quantity preferences = Some fs ->
  In f fs ->
  exists bonus,
    price_bonus (price f) budget_max = Some bonus
    /\ relevance_score f
       = (100 + eco_bonus preferences (category f)
          + traditional_bonus preferences (category f)
          + premium_bonus preferences (category f) + bonus)%Z.
Proof.
  unfold search_matching_products.
  destruct (score_all budget_max quantity preferences (group_rows rows))
    as [l|] eqn:Hall; cbn; [|discriminate].
  intro H; injection H as <-.
  rewrite sort_desc_in; intro Hin.
  destruct (@score_all_formula _ _ _ Hall Hin) as [p [_ Hp]].
  exact (@score_product_formula _ _ Hp).
Qed.

End Scores.

Example int_of_float_truncates :
  Products.int_of_float 18.75%float = Some 18%Z
  /\ Products.int_of_float (-2.5)%float = Some (-2)%Z
  /\ Products.price_bonus 4 5 = Some 3%Z.
Proof. vm_compute; repeat split; reflexivity. Qed.

Lemma relevance_score_truncates_witness :
  exists bonus,
    Products.price_bonus 1 16 = Some bonus
    /\ 118%Z = (100 + 0 + 0 + 0 + bonus)%Z.
Proof.
  apply (@relevance_score_truncates 16 10 [] [Demo.box]
           [ {| Products.name := s2l "Gift box"; Products.price := 1;
                Products.category := s2l "Eco-Friendly";
                Products.min_order := 1; Products.image_url := [];
                Products.relevance_score := 118 |} ]
           {| Products.name := s2l "Gift box"; Products.price := 1;
              Products.category := s2l "Eco-Friendly";
              Products.min_order := 1; Products.image_url := [];
              Products.relevance_score := 118 |});
    [vm_compute; reflexivity | left; reflexivity].
Defined.

(** C9 as stated fails: at price 1 and budget 16 the bonus is
    (1 - 0.0625) * 20 = 18.75 (exact in binary floating point); the code
    scores 100 + 18 = 118, rounding to the nearest integer gives 119. *)
Lemma score_is_not_rounded :
  exists f,
    Products.search_matching_products [Demo.box] 16 10 [] = Some [f]
    /\ Products.relevance_score f = 118%Z
    /\ Products.specified_score [] 16 f = 119%Z.
Proof.
  eexists; split; [vm_compute; reflexivity|].
  split; vm_compute; reflexivity.
Qed.

(** *** Hand-off is kept until a reset *)

Lemma apply_flagging (st : BotState) (u : Update) :
  handoff_flagged st -> flagging u -> handoff_flagged (apply_update st u).
Proof.
  unfold handoff_flagged, flagging; cbn.
  destruct (u_current_stage u) as [g|].
  - destruct g; intros _ Hu Hs; try discriminate.
    rewrite Hu; reflexivity.
  - intros Hst Hu Hs; rewrite Hu; cbn; auto.
Qed.

Ltac split_ifs :=
  repeat match goal with
         | |- context [if ?b then _ else _] => destruct b
         end.

Lemma classifier_flagging (W : World) (st : BotState) (u : Update) :
  intent_classifier_node W st = Some u -> flagging u.
Proof.
  unfold intent_classifier_node, llm_classification.
  destruct (needs_human_handoff st); [intro H; injection H as <-; reflexivity|].
  destruct (last_human st) as [m|]; [|intro H; injection H as <-; reflexivity].
  destruct (llm_invoke W m) as [c|]; cbn [bind];
  split_ifs; intro H; try discriminate; injection H as <-; exact I || reflexivity.
Qed.

Lemma extraction_flagging (st : BotState) :
  flagging (requirement_extraction_node st).
Proof.
  unfold requirement_extraction_node, general_extraction.
  destruct (isdigit _); [|exact I].
  destruct (requirements st) as [req|]; [|exact I].
  destruct (quantity req); [|exact I].
  destruct (budget_per_piece req); exact I.
Qed.

Lemma ask_confirmation_flagging (st : BotState) (u : Update) :
  ask_confirmation_node st = Some u -> flagging u.
Proof.
  unfold ask_confirmation_node.
  destruct (requirements st) as [req|]; [|intro H; injection H as <-; exact I].
  destruct (_ && _ && _); [intro H; injection H as <-; exact I|].
  destruct (share_items (missing_fields req)); cbn; intro H;
    [injection H as <-; exact I | discriminate].
Qed.

Lemma validation_flagging (W : World) (st : BotState) (u : Update) :
  validation_node W st = Some u -> flagging u.
Proof.
  unfold validation_node.
  destruct (requirements st) as [req|]; cbn; [|discriminate].
  destruct (timeline req); cbn; [|discriminate].
  intro H; injection H as <-; exact I.
Qed.

Lemma product_search_flagging (W : World) (st : BotState) (u : Update) :
  product_search_node W st = Some u -> flagging u.
Proof.
  unfold product_search_node.
  destruct (requirements st) as [req|]; cbn; [|discriminate].
  destruct (budget_per_piece req); cbn; [|discriminate].
  destruct (quantity req) as [q|]; cbn; [|discriminate].
  destruct (fetch_rows W q); cbn; [|discriminate].
  destruct (Products.search_matching_products _ _ _ _); cbn; [|discriminate].
  intro H; injection H as <-; exact I.
Qed.

Lemma recommendation_flagging (st : BotState) (u : Update) :
  recommendation_node st = Some u -> flagging u.
Proof.
  unfold recommendation_node.
  destruct (requirements st) as [req|]; cbn; [|discriminate].
  destruct (recommended_products st) as [[|f fs]|];
    try (intro H; injection H as <-; reflexivity).
  destruct (timeline req); cbn; [|discriminate].
  intro H; injection H as <-; reflexivity.
Qed.

Lemma receive_flagged (st : BotState) (uid message : str) :
  handoff_flagged st -> handoff_flagged (Graph.receive st uid message).
Proof. exact (fun H => H). Qed.

Lemma invoke_keeps_flag (W : World) (st st' : BotState) (uid message : str)
    (ns : list Graph.node) :
  Graph.invoke W st uid message = Some (st', ns) ->
  handoff_flagged st -> handoff_flagged st'.
Proof.
  intros Hrun Hst.
  apply (@receive_flagged st uid message) in Hst.
  revert Hrun; unfold Graph.invoke.
  set (st0 := Graph.receive st uid message) in *.
  destruct (Graph.entry_router st0).
  - intro H; injection H as <- _.
    apply apply_flagging; [exact Hst | exact I].
  - destruct (intent_classifier_node W st0) as [u1|] eqn:H1; cbn [bind];
      [|discriminate].
    set (st1 := apply_update st0 u1).
    assert (F1 : handoff_flagged st1)
      by (apply apply_flagging; [exact Hst | exact (@classifier_flagging W st0 u1 H1)]).
    destruct (Graph.post_intent_router st1);
      [|intro H; injection H as <- _; exact F1].
    set (st2 := apply_update st1 (requirement_extraction_node st1)).
    assert (F2 : handoff_flagged st2)
      by (apply apply_flagging; [exact F1 | apply extraction_flagging]).
    destruct (validation_router st2).
    + destruct (validation_node W st2) as [u3|] eqn:H3; cbn [bind];
        [|discriminate].
      set (st3 := apply_update st2 u3).
      assert (F3 : handoff_flagged st3)
        by (apply apply_flagging;
            [exact F2 | exact (@validation_flagging W st2 u3 H3)]).
      destruct (product_search_node W st3) as [u4|] eqn:H4; cbn [bind];
        [|discriminate].
      set (st4 := apply_update st3 u4).
      assert (F4 : handoff_flagged st4)
        by (apply apply_flagging;
            [exact F3 | exact (@product_search_flagging W st3 u4 H4)]).
      destruct (recommendation_node st4) as [u5|] eqn:H5; cbn [bind];
        [|discriminate].
      intro H; injection H as <- _.
      apply apply_flagging;
        [exact F4 | exact (@recommendation_flagging st4 u5 H5)].
    + destruct (ask_confirmation_node st2) as [u3|] eqn:H3; cbn [bind];
        [|discriminate].
      intro H; injection H as <- _.
      apply apply_flagging;
        [exact F2 | exact (@ask_confirmation_flagging st2 u3 H3)].
Qed.

Lemma reachable_handoff_flagged (W : World) (st : BotState) :
  reachable W st -> handoff_flagged st.
Proof.
  induction 1 as [|st st' uid message ns _ IH Hrun].
  - intro H; discriminate.
  - exact (@invoke_keeps_flag W st st' uid message ns Hrun IH).
Qed.

(** Once handed off (and greeted), a conversation takes every further
    message in silence: the classifier runs alone and changes nothing. *)
Lemma handed_off_turn_is_silent (W : World) (st : BotState) (uid message : str) :
  reachable W st ->
  current_stage st = Some Stage.handoff ->
  has_greeted st = true ->
  Graph.invoke W st uid message
  = Some (Graph.receive st uid message, [Graph.n_classify_intent]).
Proof.
  intros Hr Hs Hg.
  pose proof (@reachable_handoff_flagged W st Hr Hs) as Hf.
  unfold Graph.invoke.
  assert (He : Graph.entry_router (Graph.receive st uid message)
               = Graph.to_classify_intent).
  { unfold Graph.entry_router; cbn [has_greeted Graph.receive].
    rewrite Hg; cbn [negb].
    match goal with
    | |- (if ?b then _ else _) = _ => destruct b; reflexivity
    end. }
  rewrite He, (@classifier_silent_after_handoff W (Graph.receive st uid message) Hf).
  cbn [bind]; rewrite apply_no_update.
  unfold Graph.post_intent_router; cbn [current_stage needs_human_handoff Graph.receive].
  rewrite Hs; reflexivity.
Qed.

(** * Further properties *)

(** ** Number tokens are runs of digits *)

Section Digits.

Variable whole : str.









End Digits.



Lemma int_of_digits_nonneg (s : str) : (0 <= int_of_digits s)%Z.
Proof.
  unfold int_of_digits.
  assert (G : forall acc, (0 <= acc)%Z ->
                (0 <= fold_left (fun a c => 10 * a + digit_val c) s acc)%Z).
  { induction s as [|c s IH]; intros acc Ha; cbn [fold_left]; [exact Ha|].
    apply IH; unfold digit_val; lia. }
  apply G; lia.
Qed.

(** X2: The extractor returns no negative quantity and no negative budget. *)
Theorem extracted_numbers_not_negative (message : str) :
  (forall q, quantity (extract_customer_requirements message) = Some q ->
     (0 <= q)%Z)
  /\ (forall b, budget_per_piece (extract_customer_requirements message) = Some b ->
        (0 <= b)%Z).
Proof.
  assert (K : forall ps ml v, first_keyword_match ps ml = Some v -> (0 <= v)%Z).
  { induction ps as [|p ps IH]; intros ml v; simpl; [discriminate|].
    destruct (search p ml) as [x|]; [|apply IH].
    destruct (group ml x 1); intro H; injection H as <-;
      [apply int_of_digits_nonneg | lia]. }
  assert (N : forall dn n, In n (non_date_numbers message dn) -> (0 <= n)%Z).
  { intros dn n Hin; unfold non_date_numbers in Hin.
    apply in_map_iff in Hin; destruct Hin as [t [<- _]].
    apply int_of_digits_nonneg. }
  rewrite extract_steps; cbv zeta; cbn [quantity budget_per_piece].
  set (dn := snd (step_timeline (lower message))).
  pose proof (N dn) as Nd.
  pose proof (K qty_patterns (lower message)) as Kq.
  pose proof (K budget_patterns (lower message)) as Kb.
  fold (keyword_quantity (lower message)) in Kq.
  fold (keyword_budget (lower message)) in Kb.
  destruct (keyword_quantity (lower message)) as [kq|],
    (keyword_budget (lower message)) as [kb|];
    destruct (non_date_numbers message dn) as [|n0 [|n1 rest]];
    cbn; split; intros v H; try discriminate; injection H as <-;
    first [apply Kq; reflexivity | apply Kb; reflexivity
          | apply Nd; simpl; tauto].
Qed.

(** *** More on the field extractor *)

(** X3: Confirmation is requested only for two positional numbers. *)
Theorem confirmation_means_two_positional (message : str) :
  needs_confirmation (extract_customer_requirements message) = true ->
  keyword_quantity (lower message) = None
  /\ keyword_budget (lower message) = None
  /\ exists n0 n1 rest,
       non_date_numbers message (snd (step_timeline (lower message)))
       = n0 :: n1 :: rest
       /\ quantity (extract_customer_requirements message) = Some n0
       /\ budget_per_piece (extract_customer_requirements message) = Some n1.
Proof.
  rewrite extract_steps; cbv zeta; cbn [needs_confirmation quantity budget_per_piece].
  destruct (keyword_quantity (lower message)) as [q|];
    destruct (keyword_budget (lower message)) as [b|];
    try (intro H; repeat rewrite ?andb_false_r, ?andb_false_l in H; cbn in H;
         rewrite ?andb_false_r in H; discriminate).
  destruct (non_date_numbers message (snd (step_timeline (lower message))))
    as [|n0 [|n1 rest]]; cbn; try discriminate.
  intros _; repeat split; exists n0, n1, rest; repeat split; reflexivity.
Qed.

(** X4: A value found by a keyword pattern is the one returned, whatever
    numbers the message holds, and it switches confirmation off. *)
Theorem keyword_value_is_kept (message : str) :
  (forall q, keyword_quantity (lower message) = Some q ->
     quantity (extract_customer_requirements message) = Some q
     /\ needs_confirmation (extract_customer_requirements message) = false)
  /\ (forall b, keyword_budget (lower message) = Some b ->
        budget_per_piece (extract_customer_requirements message) = Some b
        /\ needs_confirmation (extract_customer_requirements message) = false).
Proof.
  split; intros v Hv; rewrite extract_steps; cbv zeta;
    cbn [needs_confirmation quantity budget_per_piece]; rewrite Hv.
  - destruct (keyword_budget (lower message));
      destruct (non_date_numbers message _) as [|n0 [|n1 rest]]; cbn;
      split; reflexivity.
  - destruct (keyword_quantity (lower message));
      destruct (non_date_numbers message _) as [|n0 [|n1 rest]]; cbn;
      split; reflexivity.
Qed.

(** X5: Without a date match the timeline is a code of the keyword table, and
    every such code is known to the resolver. *)
Theorem keyword_timeline_is_canonical (message t : str) :
  date_matches (lower message) = [] ->
  timeline (extract_customer_requirements message) = Some t ->
  exists days urgency,
    Timeline.config_lookup Timeline.timeline_config (lower t)
    = Some (days, urgency)
    /\ forall C : Clock,
         Timeline.days_remaining (Timeline.calculate_timeline_urgency C t)
         = days
         /\ Timeline.urgency_level (Timeline.calculate_timeline_urgency C t)
            = urgency.
Proof.
  intros Hd Ht.
  rewrite extract_steps in Ht; cbv zeta in Ht; cbn [timeline] in Ht.
  rewrite step_timeline_last, Hd in Ht; cbn [map last] in Ht.
  assert (Hc : exists du,
             Timeline.config_lookup Timeline.timeline_config (lower t) = Some du).
  { revert Ht; unfold timeline_keyword, timeline_map.
    repeat match goal with
           | |- context [if ?c then _ else _] => destruct c
           end;
      intro H; try discriminate; injection H as <-; vm_compute; eauto. }
  destruct Hc as [[days urgency] Hc].
  exists days, urgency; split; [exact Hc|].
  intro C; unfold Timeline.calculate_timeline_urgency; rewrite Hc; split; reflexivity.
Qed.

(** *** Location *)

Lemma city_lookup_first (cities : list string) (msg_lower l : str) :
  city_lookup cities msg_lower = Some l ->
  exists before city after,
    cities = before ++ city :: after
    /\ (forall c, In c before -> contains (s2l c) msg_lower = false)
    /\ contains (s2l city) msg_lower = true
    /\ l = city_display city.
Proof.
  induction cities as [|c cities IH]; simpl; [discriminate|].
  destruct (contains (s2l c) msg_lower) eqn:Hc.
  - intro H; injection H as <-.
    exists [], c, cities; repeat split; [intros ? []|exact Hc].
  - intro H; destruct (IH H) as [before [city [after [E [Hb [Hi Hl]]]]]].
    exists (c :: before), city, after; repeat split.
    + rewrite E; reflexivity.
    + intros c' [<-|Hin]; [exact Hc | apply Hb; exact Hin].
    + exact Hi.
    + exact Hl.
Qed.

Lemma known_city_display (city : string) :
  In city known_cities ->
  city_display city
  = (if String.eqb city "bengaluru" then s2l "Bangalore" else title (s2l city))
  /\ city_display city <> [].
Proof.
  intro H; unfold known_cities in H.
  repeat (destruct H as [<-|H]; [vm_compute; split; [reflexivity|discriminate]|]).
  contradiction.
Qed.

(** X6: The first known city, in the order of the list, that occurs in the
    lower-cased message is the location, whatever else the message holds;
    it is shown title-cased, "bengaluru" as "Bangalore".  The two other
    aliases of the source are for names that are not in the list. *)
Theorem gazetteer_city_is_location (message l : str) :
  city_lookup known_cities (lower message) = Some l ->
  location (extract_customer_requirements message) = Some l
  /\ exists before city after,
       known_cities = before ++ city :: after
       /\ (forall c, In c before -> contains (s2l c) (lower message) = false)
       /\ contains (s2l city) (lower message) = true
       /\ l = (if String.eqb city "bengaluru" then s2l "Bangalore"
               else title (s2l city)).
Proof.
  intro H.
  destruct (@city_lookup_first _ _ _ H) as [before [city [after [E [Hb [Hi Hl]]]]]].
  assert (Hin : In city known_cities) by (rewrite E; apply in_elt).
  destruct (@known_city_display _ Hin) as [Hd Hne].
  split.
  - rewrite extract_steps; cbv zeta; cbn [location].
    unfold step_location; rewrite H.
    rewrite Hl in *. destruct (city_display city); [congruence|reflexivity].
  - exists before, city, after; repeat split; try assumption.
    rewrite Hl; exact Hd.
Qed.

Lemma alpha_char_facts (c : ascii) :
  is_alpha c = true ->
  is_space c = false /\ between 128 191 c = false /\ is_digit c = false.
Proof.
  destruct c as [[] [] [] [] [] [] [] []]; vm_compute; intro H;
    try discriminate; repeat split; reflexivity.
Qed.

Lemma upper_not_digit (c : ascii) : is_upper c = true -> is_digit c = false.
Proof.
  destruct c as [[] [] [] [] [] [] [] []]; vm_compute; intro H;
    try discriminate; reflexivity.
Qed.

Lemma lstrip_alpha (s : str) : forallb is_alpha s = true -> lstrip s = s.
Proof.
  destruct s as [|c s]; simpl; [reflexivity|].
  intro H; apply andb_true_iff in H; destruct H as [Hc _].
  destruct (alpha_char_facts _ Hc) as [-> _]; reflexivity.
Qed.

Lemma strip_alpha (s : str) : forallb is_alpha s = true -> strip s = s.
Proof.
  intro H; unfold strip, rstrip.
  rewrite (lstrip_alpha _ H), lstrip_alpha, rev_involutive; [reflexivity|].
  rewrite forallb_forall in *; intros c Hc; apply H, in_rev; exact Hc.
Qed.

Lemma split_ws_aux_alpha (s cur : str) :
  forallb is_alpha s = true -> cur ++ s <> [] ->
  split_ws_aux cur s = [rev cur ++ s].
Proof.
  revert cur; induction s as [|c s IH]; intros cur Ha Hne; simpl.
  - rewrite app_nil_r in *. destruct cur; [congruence|reflexivity].
  - simpl in Ha; apply andb_true_iff in Ha; destruct Ha as [Hc Hs].
    destruct (alpha_char_facts _ Hc) as [-> _].
    rewrite IH; [|exact Hs|discriminate].
    simpl; rewrite <- app_assoc; reflexivity.
Qed.

Lemma py_len_alpha (s : str) : forallb is_alpha s = true -> py_len s = length s.
Proof.
  unfold py_len; induction s as [|c s IH]; simpl; [reflexivity|].
  intro H; apply andb_true_iff in H; destruct H as [Hc Hs].
  destruct (alpha_char_facts _ Hc) as [_ [-> _]]; simpl; rewrite IH; auto.
Qed.

(** A message that is one alphabetic word of more than three letters with
    a capital first letter, no skip word and no known city inside, is
    itself the location. *)
Lemma one_word_is_location (word : str) (c : ascii) (rest : str) :
  word = c :: rest ->
  is_upper c = true ->
  forallb is_alpha word = true ->
  3 < length word ->
  mem (lower word) skip_words = false ->
  city_lookup known_cities (lower word) = None ->
  location (extract_customer_requirements word) = Some word.
Proof.
  intros Hw Hu Ha Hl Hs Hc.
  rewrite extract_steps; cbv zeta; cbn [location].
  unfold step_location; rewrite Hc; cbn [is_empty_opt].
  rewrite (strip_alpha _ Ha).
  unfold split_ws; rewrite split_ws_aux_alpha; [|exact Ha|subst; discriminate].
  cbn [rev app length Nat.leb first_place_word].
  rewrite (strip_alpha _ Ha), (py_len_alpha _ Ha).
  assert (H3 : (3 <? length word) = true) by (apply Nat.ltb_lt; exact Hl).
  rewrite H3; unfold isalpha; rewrite Ha, Hs.
  subst word; rewrite Hu; reflexivity.
Qed.

(** X7: a message that is one alphabetic word of more than three letters,
    with a capital first letter, that is no skip word and holds no known
    city, replaces the location the record holds; "Correct" does. *)
Theorem one_word_message_replaces_location (st : BotState)
    (req : ExtractedRequirements) (c : ascii) (rest : str) :
  requirements st = Some req ->
  last_human st = Some (c :: rest) ->
  is_upper c = true ->
  forallb is_alpha (c :: rest) = true ->
  3 < length (c :: rest) ->
  mem (lower (c :: rest)) skip_words = false ->
  city_lookup known_cities (lower (c :: rest)) = None ->
  exists req',
    requirements_after st = Some req' /\ location req' = Some (c :: rest).
Proof.
  intros Hr Hm Hu Ha Hl Hs Hc.
  unfold requirements_after, requirement_extraction_node.
  rewrite Hr, Hm, (strip_alpha _ Ha).
  assert (Hd : isdigit (c :: rest) = false).
  { unfold isdigit; cbn [forallb]; rewrite (upper_not_digit _ Hu).
    rewrite andb_false_r; reflexivity. }
  rewrite Hd.
  eexists; split; [reflexivity|].
  cbn [smart_merge location].
  rewrite (@one_word_is_location (c :: rest) c rest eq_refl Hu Ha Hl Hs Hc).
  reflexivity.
Qed.

Lemma one_word_message_replaces_location_witness :
  exists req',
    requirements_after
      (Graph.receive Demo.anchored_state (s2l "user") (s2l "Correct"))
    = Some req'
    /\ location req' = Some (s2l "Correct").
Proof.
  destruct (requirements Demo.anchored_state) as [req|] eqn:E;
    [|vm_compute in E; discriminate].
  apply (@one_word_message_replaces_location
           (Graph.receive Demo.anchored_state (s2l "user") (s2l "Correct"))
           req "C"%char (s2l "orrect"));
    solve [exact E | vm_compute; reflexivity | vm_compute; lia
          | apply last_human_receive].
Defined.

(** *** The merge *)

(** X8: An extraction that agrees with the record on every field changes
    nothing but the confirmation flag. *)
Theorem merge_with_same_values (req e : ExtractedRequirements) (last_msg : str) :
  quantity e = quantity req ->
  budget_per_piece e = budget_per_piece req ->
  timeline e = timeline req ->
  location e = location req ->
  preferences e = preferences req ->
  smart_merge req e last_msg
  = set_needs_confirmation (needs_confirmation e) req.
Proof.
  destruct req as [q b t l p nc], e as [q' b' t' l' p' nc']; cbn.
  intros -> -> -> -> ->.
  unfold smart_merge, set_needs_confirmation;
    cbn [quantity budget_per_piece timeline location preferences
         needs_confirmation].
  generalize (has_qty_keyword (lower last_msg))
             (has_budget_keyword (lower last_msg)); intros g1 g2.
  destruct q, b, t, l, p, g1, g2; reflexivity.
Qed.

(** X9: The extraction node never empties a field that is filled. *)
Theorem filled_fields_stay_filled (st : BotState) (req : ExtractedRequirements) :
  requirements st = Some req ->
  exists req',
    requirements_after st = Some req'
    /\ (quantity req <> None -> quantity req' <> None)
    /\ (budget_per_piece req <> None -> budget_per_piece req' <> None)
    /\ (timeline req <> None -> timeline req' <> None)
    /\ (location req <> None -> location req' <> None)
    /\ (preferences req <> [] -> preferences req' <> []).
Proof.
  intro Hr; unfold requirements_after, requirement_extraction_node.
  rewrite Hr.
  assert (Hg : forall m,
             let r' := smart_merge req (extract_customer_requirements m) m in
             (quantity req <> None -> quantity r' <> None)
             /\ (budget_per_piece req <> None -> budget_per_piece r' <> None)
             /\ (timeline req <> None -> timeline r' <> None)
             /\ (location req <> None -> location r' <> None)
             /\ (preferences req <> [] -> preferences r' <> [])).
  { intro m; unfold smart_merge, merge_guarded, merge_plain;
      cbn [quantity budget_per_piece timeline location preferences].
    generalize (has_qty_keyword (lower m)) (has_budget_keyword (lower m));
      intros g1 g2.
    destruct (quantity req), (budget_per_piece req), (timeline req),
      (location req), (preferences req),
      (quantity (extract_customer_requirements m)),
      (budget_per_piece (extract_customer_requirements m)),
      (timeline (extract_customer_requirements m)),
      (location (extract_customer_requirements m)),
      (preferences (extract_customer_requirements m)), g1, g2;
      repeat split; congruence. }
  destruct (isdigit _).
  - destruct (quantity req) as [q|] eqn:Hq.
    + destruct (budget_per_piece req) as [b|] eqn:Hb.
      * eexists; split; [reflexivity|]. apply Hg.
      * eexists; split; [reflexivity|]; cbn; rewrite Hq.
        repeat split; try discriminate; trivial.
    + eexists; split; [reflexivity|]; cbn.
      repeat split; try discriminate; trivial.
  - eexists; split; [reflexivity|]. apply Hg.
Qed.

Ltac tame_now :=
  split; [first [left; reflexivity | right; eexists; reflexivity]
         | cbn; congruence].

Lemma classifier_tame (W : World) (st : BotState) (u : Update) :
  intent_classifier_node W st = Some u ->
  tame u /\ u_messages u = [].
Proof.
  unfold intent_classifier_node, llm_classification.
  destruct (needs_human_handoff st);
    [intro H; injection H as <-; split; [tame_now|reflexivity]|].
  destruct (last_human st) as [m|];
    [|intro H; injection H as <-; split; [tame_now|reflexivity]].
  destruct (llm_invoke W m) as [c|]; cbn [bind];
    split_ifs; intro H; try discriminate; injection H as <-;
    (split; [tame_now|reflexivity]).
Qed.

Lemma extraction_tame (st : BotState) :
  tame (requirement_extraction_node st)
  /\ u_messages (requirement_extraction_node st) = [].
Proof.
  unfold requirement_extraction_node, general_extraction.
  destruct (isdigit _); [|split; [tame_now|reflexivity]].
  destruct (requirements st) as [req|]; [|split; [tame_now|reflexivity]].
  destruct (quantity req); [|split; [tame_now|reflexivity]].
  destruct (budget_per_piece req); split; tame_now || reflexivity.
Qed.

Lemma ask_confirmation_tame (st : BotState) (u : Update) :
  ask_confirmation_node st = Some u -> tame u.
Proof.
  unfold ask_confirmation_node.
  destruct (requirements st) as [req|]; [|intro H; injection H as <-; tame_now].
  destruct (_ && _ && _); [intro H; injection H as <-; tame_now|].
  destruct (share_items (missing_fields req)); cbn; intro H;
    [injection H as <-; tame_now | discriminate].
Qed.

Lemma validation_tame (W : World) (st : BotState) (u : Update) :
  validation_node W st = Some u -> tame u /\ u_messages u = [].
Proof.
  unfold validation_node.
  destruct (requirements st) as [req|]; cbn; [|discriminate].
  destruct (timeline req); cbn; [|discriminate].
  intro H; injection H as <-; split; [tame_now|reflexivity].
Qed.

Lemma product_search_tame (W : World) (st : BotState) (u : Update) :
  product_search_node W st = Some u -> tame u /\ u_messages u = [].
Proof.
  unfold product_search_node.
  destruct (requirements st) as [req|]; cbn; [|discriminate].
  destruct (budget_per_piece req); cbn; [|discriminate].
  destruct (quantity req) as [q|]; cbn; [|discriminate].
  destruct (fetch_rows W q); cbn; [|discriminate].
  destruct (Products.search_matching_products _ _ _ _); cbn; [|discriminate].
  intro H; injection H as <-; split; [tame_now|reflexivity].
Qed.

Lemma recommendation_tame (st : BotState) (u : Update) :
  recommendation_node st = Some u -> tame u.
Proof.
  unfold recommendation_node.
  destruct (requirements st) as [req|]; cbn; [|discriminate].
  destruct (recommended_products st) as [[|f fs]|];
    try (intro H; injection H as <-; tame_now).
  destruct (timeline req); cbn; [|discriminate].
  intro H; injection H as <-; tame_now.
Qed.

Lemma apply_messages (st : BotState) (u : Update) :
  messages (apply_update st u) = messages st ++ u_messages u.
Proof. reflexivity. Qed.

Lemma apply_has_greeted (st : BotState) (u : Update) :
  u_has_greeted u <> Some false -> has_greeted st = true ->
  has_greeted (apply_update st u) = true.
Proof.
  cbn; destruct (u_has_greeted u) as [[]|]; cbn; congruence.
Qed.

(** X10: Each turn adds the customer's message and at most one bot message to
    the history, and changes nothing before them. *)
Theorem turn_extends_history (W : World) (st st' : BotState)
    (uid message : str) (ns : list Graph.node) :
  Graph.invoke W st uid message = Some (st', ns) ->
  messages st' = messages st ++ [HumanMessage message]
  \/ exists c,
       messages st' = messages st ++ [HumanMessage message; AIMessage c].
Proof.
  unfold Graph.invoke.
  set (st0 := Graph.receive st uid message).
  assert (H0 : messages st0 = messages st ++ [HumanMessage message])
    by reflexivity.
  destruct (Graph.entry_router st0).
  - intro H; injection H as <- _.
    right; eexists. rewrite apply_messages, H0, <- app_assoc; reflexivity.
  - destruct (intent_classifier_node W st0) as [u1|] eqn:H1; cbn [bind];
      [|discriminate].
    set (st1 := apply_update st0 u1).
    assert (M1 : messages st1 = messages st ++ [HumanMessage message]).
    { unfold st1; rewrite apply_messages, (proj2 (classifier_tame _ _ H1)),
        app_nil_r; exact H0. }
    destruct (Graph.post_intent_router st1);
      [|intro H; injection H as <- _; left; exact M1].
    set (st2 := apply_update st1 (requirement_extraction_node st1)).
    assert (M2 : messages st2 = messages st ++ [HumanMessage message]).
    { unfold st2; rewrite apply_messages, (proj2 (extraction_tame st1)),
        app_nil_r; exact M1. }
    assert (Hone : forall s u, messages s = messages st ++ [HumanMessage message] ->
                     tame u ->
                     messages (apply_update s u)
                     = messages st ++ [HumanMessage message]
                     \/ exists c, messages (apply_update s u)
                          = messages st ++ [HumanMessage message; AIMessage c]).
    { intros s u Hs [[Hm|[c Hm]] _]; rewrite apply_messages, Hs, Hm.
      - left; apply app_nil_r.
      - right; exists c; rewrite <- app_assoc; reflexivity. }
    destruct (validation_router st2).
    + destruct (validation_node W st2) as [u3|] eqn:H3; cbn [bind];
        [|discriminate].
      set (st3 := apply_update st2 u3).
      assert (M3 : messages st3 = messages st ++ [HumanMessage message]).
      { unfold st3; rewrite apply_messages, (proj2 (validation_tame _ _ H3)),
          app_nil_r; exact M2. }
      destruct (product_search_node W st3) as [u4|] eqn:H4; cbn [bind];
        [|discriminate].
      set (st4 := apply_update st3 u4).
      assert (M4 : messages st4 = messages st ++ [HumanMessage message]).
      { unfold st4; rewrite apply_messages, (proj2 (product_search_tame _ _ H4)),
          app_nil_r; exact M3. }
      destruct (recommendation_node st4) as [u5|] eqn:H5; cbn [bind];
        [|discriminate].
      intro H; injection H as <- _.
      exact (Hone _ _ M4 (recommendation_tame _ H5)).
    + destruct (ask_confirmation_node st2) as [u3|] eqn:H3; cbn [bind];
        [|discriminate].
      intro H; injection H as <- _.
      exact (Hone _ _ M2 (ask_confirmation_tame _ H3)).
Qed.

(** *** Hand-off is permanent *)

Lemma flagged_turn (W : World) (st : BotState) (uid message : str) :
  needs_human_handoff st = true ->
  Graph.invoke W st uid message
  = Some match Graph.entry_router (Graph.receive st uid message) with
         | Graph.to_greeting =>
             (apply_update (Graph.receive st uid message)
                (greeting_node (Graph.receive st uid message)),
              [Graph.n_greeting])
         | Graph.to_classify_intent =>
             (Graph.receive st uid message, [Graph.n_classify_intent])
         end.
Proof.
  intro Hf; unfold Graph.invoke.
  destruct (Graph.entry_router (Graph.receive st uid message)); [reflexivity|].
  rewrite (@classifier_silent_after_handoff W (Graph.receive st uid message) Hf).
  cbn [bind]; rewrite apply_no_update.
  unfold Graph.post_intent_router.
  replace (needs_human_handoff (Graph.receive st uid message)) with true
    by (symmetry; exact Hf).
  rewrite orb_true_r; reflexivity.
Qed.

Lemma latest_ai_app (ms : list Message) (c : str) :
  Bot.latest_ai (ms ++ [AIMessage c]) = Some c.
Proof.
  induction ms as [|[h|a] ms IH]; simpl; [reflexivity|exact IH|].
  rewrite IH; reflexivity.
Qed.

Lemma flagged_chat_is_silent (W : World) (st : BotState) (uid message : str) :
  needs_human_handoff st = true ->
  Bot.reply (Bot.chat W st uid message) = None
  /\ Bot.needs_handoff (Bot.chat W st uid message) = true.
Proof.
  intro Hf; pose proof (flagged_turn W st uid message Hf) as Hrun.
  unfold Bot.chat, Bot.chat_body; rewrite Hrun; cbn [bind].
  destruct (Graph.entry_router _); cbn [fst].
  + replace (length (messages (apply_update (Graph.receive st uid message)
               (greeting_node (Graph.receive st uid message))))
             - length (messages st)) with 2
      by (cbn [messages apply_update Graph.receive greeting_node u_messages];
          rewrite !length_app; simpl; lia).
    cbn [Nat.ltb Nat.leb andb].
    replace (Bot.latest_ai (messages (apply_update (Graph.receive st uid message)
               (greeting_node (Graph.receive st uid message)))))
      with (Some greeting_msg)
      by (symmetry; apply latest_ai_app).
    replace (str_eqb greeting_msg product_marker) with false
      by (vm_compute; reflexivity).
    cbn [andb].
    replace (needs_human_handoff (apply_update (Graph.receive st uid message)
               (greeting_node (Graph.receive st uid message)))) with true
      by (symmetry; exact Hf).
    split; reflexivity.
  + replace (length (messages (Graph.receive st uid message))
             - length (messages st)) with 1
      by (cbn [messages Graph.receive]; rewrite !length_app; simpl; lia).
    cbn [Nat.ltb Nat.leb andb].
    replace (needs_human_handoff (Graph.receive st uid message)) with true
      by (symmetry; exact Hf).
    split; reflexivity.
Qed.

(** X11: Whatever the state of a conversation whose hand-off flag is set, and
    whatever the message, the flag stays set and [chat] gives no reply. *)
Theorem handoff_is_permanent (W : World) (st : BotState) (uid message : str) :
  needs_human_handoff st = true ->
  (exists st' ns,
     Graph.invoke W st uid message = Some (st', ns)
     /\ needs_human_handoff st' = true
     /\ requirements st' = requirements st
     /\ handoff_reason st' = handoff_reason st)
  /\ Bot.reply (Bot.chat W st uid message) = None
  /\ Bot.needs_handoff (Bot.chat W st uid message) = true.
Proof.
  intro Hf; pose proof (flagged_turn W st uid message Hf) as Hrun.
  split.
  - destruct (Graph.entry_router _); do 2 eexists;
      (split; [exact Hrun|]); cbn; repeat split; exact Hf.
  - exact (@flagged_chat_is_silent W st uid message Hf).
Qed.

(** *** The greeting *)

(** X12: A conversation that has been greeted is not greeted again, and stays
    greeted. *)
Theorem greeted_once (W : World) (st st' : BotState) (uid message : str)
    (ns : list Graph.node) :
  has_greeted st = true ->
  Graph.invoke W st uid message = Some (st', ns) ->
  ~ In Graph.n_greeting ns /\ has_greeted st' = true.
Proof.
  intros Hg; unfold Graph.invoke.
  set (st0 := Graph.receive st uid message).
  assert (G0 : has_greeted st0 = true) by exact Hg.
  assert (He : Graph.entry_router st0 = Graph.to_classify_intent).
  { unfold Graph.entry_router; rewrite G0; cbn [negb].
    match goal with
    | |- (if ?b then _ else _) = _ => destruct b; reflexivity
    end. }
  rewrite He.
  assert (Hno : forall l, (forall n, In n l -> n <> Graph.n_greeting) ->
                          ~ In Graph.n_greeting l)
    by (intros l Hl Hin; exact (Hl _ Hin eq_refl)).
  destruct (intent_classifier_node W st0) as [u1|] eqn:H1; cbn [bind];
    [|discriminate].
  set (st1 := apply_update st0 u1).
  assert (G1 : has_greeted st1 = true)
    by (apply apply_has_greeted;
        [exact (proj2 (proj1 (classifier_tame _ _ H1))) | exact G0]).
  destruct (Graph.post_intent_router st1).
  2:{ intro H; injection H as <- <-; split; [|exact G1].
      intros [E|[]]; discriminate. }
  set (st2 := apply_update st1 (requirement_extraction_node st1)).
  assert (G2 : has_greeted st2 = true)
    by (apply apply_has_greeted;
        [exact (proj2 (proj1 (extraction_tame st1))) | exact G1]).
  destruct (validation_router st2).
  - destruct (validation_node W st2) as [u3|] eqn:H3; cbn [bind];
      [|discriminate].
    set (st3 := apply_update st2 u3).
    assert (G3 : has_greeted st3 = true)
      by (apply apply_has_greeted;
          [exact (proj2 (proj1 (validation_tame _ _ H3))) | exact G2]).
    destruct (product_search_node W st3) as [u4|] eqn:H4; cbn [bind];
      [|discriminate].
    set (st4 := apply_update st3 u4).
    assert (G4 : has_greeted st4 = true)
      by (apply apply_has_greeted;
          [exact (proj2 (proj1 (product_search_tame _ _ H4))) | exact G3]).
    destruct (recommendation_node st4) as [u5|] eqn:H5; cbn [bind];
      [|discriminate].
    intro H; injection H as <- <-; split.
    + intro Hin; simpl in Hin; intuition discriminate.
    + apply apply_has_greeted;
        [exact (proj2 (recommendation_tame _ H5)) | exact G4].
  - destruct (ask_confirmation_node st2) as [u3|] eqn:H3; cbn [bind];
      [|discriminate].
    intro H; injection H as <- <-; split.
    + intro Hin; simpl in Hin; intuition discriminate.
    + apply apply_has_greeted;
        [exact (proj2 (ask_confirmation_tame _ H3)) | exact G2].
Qed.

(** *** Questions *)


(** X13: Whenever the router sends a state to [ask_confirmation], the node
    finds something to ask: the list of missing fields it indexes is not
    empty. *)
Theorem ask_confirmation_has_a_question (st : BotState) :
  validation_router st = to_ask_confirmation ->
  exists u, ask_confirmation_node st = Some u
            /\ (u_messages u = [] -> requirements st = None).
Proof.
  unfold validation_router, ask_confirmation_node.
  destruct (requirements st) as [req|];
    [|intros _; eexists; split; [reflexivity|reflexivity]].
  unfold missing_fields, truthy_Z, truthy_str, is_empty_opt.
  destruct (quantity req) as [q|], (budget_per_piece req) as [b|],
    (timeline req) as [[|? ?]|], (location req) as [[|? ?]|],
    (needs_confirmation req); cbn;
    try discriminate;
    intros _;
    try destruct (q =? 0)%Z; try destruct (b =? 0)%Z; cbn;
    eexists; (split; [reflexivity|discriminate]).
Qed.

(** *** The path through validation and search *)

Lemma validate_route_complete (st : BotState) :
  validation_router st = to_validate ->
  exists req q b tl loc,
    requirements st = Some req
    /\ quantity req = Some q /\ budget_per_piece req = Some b
    /\ timeline req = Some tl /\ location req = Some loc
    /\ needs_confirmation req = false.
Proof.
  unfold validation_router.
  destruct (requirements st) as [req|]; [|discriminate].
  destruct (quantity req) as [q|] eqn:Hq,
    (budget_per_piece req) as [b|] eqn:Hb,
    (timeline req) as [tl|] eqn:Ht, (location req) as [loc|] eqn:Hl,
    (needs_confirmation req) eqn:Hn; cbn; try discriminate.
  intros _; exists req, q, b, tl, loc; repeat split; assumption.
Qed.

Lemma extraction_sets_record (st : BotState) :
  exists req,
    u_requirements (requirement_extraction_node st) = Some (Some req)
    /\ u_current_stage (requirement_extraction_node st) = Some Stage.validation
    /\ u_needs_human_handoff (requirement_extraction_node st) = None.
Proof.
  unfold requirement_extraction_node, general_extraction.
  destruct (isdigit _); [|eexists; repeat split; reflexivity].
  destruct (requirements st) as [req|]; [|eexists; repeat split; reflexivity].
  destruct (quantity req); [|eexists; repeat split; reflexivity].
  destruct (budget_per_piece req); eexists; repeat split; reflexivity.
Qed.

(** What the three last nodes do, from a state the router sent to
    validation. *)
Lemma validate_path (W : World) (st2 st' : BotState) :
  (u3 <- validation_node W st2 ;;
   u4 <- product_search_node W (apply_update st2 u3) ;;
   u5 <- recommendation_node (apply_update (apply_update st2 u3) u4) ;;
   Some (apply_update (apply_update (apply_update st2 u3) u4) u5))%raises
  = Some st' ->
  requirements st' = requirements st2
  /\ current_stage st' = Some Stage.handoff
  /\ needs_human_handoff st' = true
  /\ (handoff_reason st' = Some (s2l "no_products")
      \/ handoff_reason st' = Some (s2l "products_shown")).
Proof.
  unfold validation_node.
  destruct (requirements st2) as [req|] eqn:Hr; cbn [bind]; [|discriminate].
  destruct (timeline req) as [tl|] eqn:Ht; cbn [bind]; [|discriminate].
  unfold product_search_node; cbn [requirements apply_update u_requirements or_old].
  rewrite Hr; cbn [bind].
  destruct (budget_per_piece req) as [b|]; cbn [bind]; [|discriminate].
  destruct (quantity req) as [q|]; cbn [bind]; [|discriminate].
  destruct (fetch_rows W q) as [rows|]; cbn [bind]; [|discriminate].
  destruct (Products.search_matching_products rows b q (preferences req))
    as [fs|]; cbn [bind]; [|discriminate].
  unfold recommendation_node;
    cbn [requirements recommended_products apply_update u_requirements
         u_recommended_products or_old].
  rewrite Hr; cbn [bind].
  destruct fs as [|f fs].
  - intro H; injection H as <-; cbn; rewrite Hr; auto.
  - rewrite Ht; cbn [bind].
    intro H; injection H as <-; cbn; rewrite Hr; auto.
Qed.

Lemma last_human_apply_silent (st : BotState) (u : Update) :
  u_messages u = [] -> last_human (apply_update st u) = last_human st.
Proof.
  intro H; unfold last_human; cbn [messages apply_update].
  rewrite H, app_nil_r; reflexivity.
Qed.

(** The router at the entry and the classifier test the same phrases. *)
Lemma quick_queries_same (f : str -> bool) :
  existsb f Graph.quick_queries = existsb f quick_price_queries.
Proof.
  unfold Graph.quick_queries, quick_price_queries; cbn [map existsb].
  repeat match goal with
         | |- context [f ?x] => generalize (f x); intro
         end.
  repeat match goal with b : bool |- _ => destruct b end; reflexivity.
Qed.

(** *** Confirmation *)

(** X14: In a conversation that waits for a confirmation, any message from
    which nothing is extracted, "yes" and "no" alike, clears the flag and
    sends the record, complete, to validation and product search. *)
Theorem empty_reply_confirms (W : World) (st st' : BotState)
    (req : ExtractedRequirements) (uid message : str) (ns : list Graph.node)
    (q b : Z) (tl loc : str) :
  needs_human_handoff st = false ->
  has_greeted st = true ->
  current_stage st = Some Stage.awaiting_confirmation ->
  requirements st = Some req ->
  quantity req = Some q -> budget_per_piece req = Some b ->
  timeline req = Some tl -> location req = Some loc ->
  contains image_marker message = false ->
  is_quick_query message (strip (lower message)) = false ->
  isdigit (strip message) = false ->
  extract_customer_requirements message = nothing_extracted ->
  Graph.invoke W st uid message = Some (st', ns) ->
  ns = [Graph.n_classify_intent; Graph.n_extract_requirements;
        Graph.n_validate; Graph.n_search_products; Graph.n_recommend]
  /\ requirements st' = Some (set_needs_confirmation false req)
  /\ current_stage st' = Some Stage.handoff.
Proof.
  intros Hf Hg Hs Hr Hq Hb Ht Hl F1 F2 F5 F6.
  unfold Graph.invoke.
  set (st0 := Graph.receive st uid message).
  assert (L0 : last_human st0 = Some message) by apply last_human_receive.
  assert (E : Graph.entry_router st0 = Graph.to_classify_intent).
  { unfold Graph.entry_router; rewrite L0, F1, quick_queries_same.
    unfold is_quick_query in F2; rewrite F2; cbn [orb].
    change (has_greeted st0) with (has_greeted st); rewrite Hg; reflexivity. }
  rewrite E.
  assert (C : exists u1,
             intent_classifier_node W st0 = Some u1
             /\ u_messages u1 = []
             /\ current_stage (apply_update st0 u1) <> Some Stage.handoff
             /\ needs_human_handoff (apply_update st0 u1) = false
             /\ exists nc,
                  requirements (apply_update st0 u1)
                  = Some (set_needs_confirmation nc req)).
  { unfold intent_classifier_node.
    change (needs_human_handoff st0) with (needs_human_handoff st).
    change (current_stage st0) with (current_stage st).
    change (requirements st0) with (requirements st).
    rewrite Hf, L0, F1, F2, Hs, Hr; cbn [stage_is Stage.eqb].
    destruct (mem (strip (lower message)) confirm_words);
      eexists; (split; [reflexivity|]); (split; [reflexivity|]);
      (split; [cbn; discriminate|]); (split; [cbn; exact Hf|]).
    - exists false; reflexivity.
    - exists (needs_confirmation req); cbn.
      change (requirements st) with (requirements st); rewrite Hr.
      destruct req; reflexivity. }
  destruct C as [u1 [C [M1 [S1 [N1 [nc R1]]]]]].
  rewrite C; cbn [bind].
  set (st1 := apply_update st0 u1) in *.
  assert (P : Graph.post_intent_router st1 = Graph.to_extract_requirements).
  { unfold Graph.post_intent_router; rewrite N1, orb_false_r.
    unfold stage_is; destruct (current_stage st1) as [[]|]; try reflexivity.
    congruence. }
  rewrite P.
  set (st2 := apply_update st1 (requirement_extraction_node st1)).
  assert (R2 : requirements st2 = Some (set_needs_confirmation false req)).
  { unfold st2.
    change (requirements (apply_update st1 (requirement_extraction_node st1)))
      with (or_old (u_requirements (requirement_extraction_node st1))
              (requirements st1)).
    assert (L1 : last_human st1 = Some message)
      by (unfold st1; rewrite (@last_human_apply_silent st0 u1 M1); exact L0).
    unfold requirement_extraction_node.
    rewrite L1, F5; unfold general_extraction; rewrite F6, R1.
    cbn [or_old u_requirements requirements_update].
    unfold smart_merge, nothing_extracted, set_needs_confirmation; cbn.
    destruct (quantity req), (budget_per_piece req), (timeline req),
      (location req); reflexivity. }
  assert (V : validation_router st2 = to_validate).
  { unfold validation_router; rewrite R2; cbn.
    rewrite Hq, Hb, Ht, Hl; reflexivity. }
  rewrite V; intro H.
  assert (Hp : (u3 <- validation_node W st2 ;;
                u4 <- product_search_node W (apply_update st2 u3) ;;
                u5 <- recommendation_node
                        (apply_update (apply_update st2 u3) u4) ;;
                Some (apply_update (apply_update (apply_update st2 u3) u4)
                        u5))%raises = Some st'
               /\ ns = [Graph.n_classify_intent; Graph.n_extract_requirements;
                        Graph.n_validate; Graph.n_search_products;
                        Graph.n_recommend]).
  { destruct (validation_node W st2) as [u3|]; cbn [bind] in *; [|discriminate].
    destruct (product_search_node W _) as [u4|]; cbn [bind] in *;
      [|discriminate].
    destruct (recommendation_node _) as [u5|]; cbn [bind] in *;
      [|discriminate].
    injection H as <- <-; split; reflexivity. }
  destruct Hp as [Hp ->].
  destruct (@validate_path W st2 st' Hp) as [Hr' [Hst _]].
  split; [reflexivity|]; split; [rewrite Hr'; exact R2 | exact Hst].
Qed.

Lemma invoke_validate_shape (W : World) (st st' : BotState)
    (uid message : str) (ns : list Graph.node) :
  Graph.invoke W st uid message = Some (st', ns) ->
  In Graph.n_validate ns ->
  exists st2,
    validation_router st2 = to_validate
    /\ (u3 <- validation_node W st2 ;;
        u4 <- product_search_node W (apply_update st2 u3) ;;
        u5 <- recommendation_node (apply_update (apply_update st2 u3) u4) ;;
        Some (apply_update (apply_update (apply_update st2 u3) u4) u5))%raises
       = Some st'.
Proof.
  unfold Graph.invoke.
  destruct (Graph.entry_router _).
  { intro H; injection H as _ <-; simpl; intuition discriminate. }
  destruct (intent_classifier_node W _) as [u1|]; cbn [bind]; [|discriminate].
  destruct (Graph.post_intent_router _).
  2:{ intro H; injection H as _ <-; simpl; intuition discriminate. }
  match goal with
  | |- context [validation_router ?s] =>
      set (st2 := s); destruct (validation_router st2) eqn:Hv
  end.
  - intros H _; exists st2; split; [exact Hv|].
    destruct (validation_node W st2) as [u3|]; cbn [bind] in *; [|discriminate].
    destruct (product_search_node W _) as [u4|]; cbn [bind] in *; [|discriminate].
    destruct (recommendation_node _) as [u5|]; cbn [bind] in *; [|discriminate].
    injection H as <- _; reflexivity.
  - destruct (ask_confirmation_node st2); cbn [bind]; [|discriminate].
    intro H; injection H as _ <-; simpl; intuition discriminate.
Qed.

(** X15: A turn that reaches validation ends handed off, with a record that
    has quantity, budget, timeline and location and needs no confirmation;
    the reason is that products were shown or that none matched. *)
Theorem search_needs_complete_record (W : World) (st st' : BotState)
    (uid message : str) (ns : list Graph.node) :
  Graph.invoke W st uid message = Some (st', ns) ->
  In Graph.n_validate ns ->
  (exists req q b tl loc,
     requirements st' = Some req
     /\ quantity req = Some q /\ budget_per_piece req = Some b
     /\ timeline req = Some tl /\ location req = Some loc
     /\ needs_confirmation req = false)
  /\ current_stage st' = Some Stage.handoff
  /\ needs_human_handoff st' = true
  /\ (handoff_reason st' = Some (s2l "no_products")
      \/ handoff_reason st' = Some (s2l "products_shown")).
Proof.
  intros Hrun Hin.
  destruct (@invoke_validate_shape W st st' uid message ns Hrun Hin)
    as [st2 [Hv Hp]].
  destruct (@validate_path W st2 st' Hp) as [Hr [Hs [Hf Hreason]]].
  split; [|auto].
  rewrite Hr; exact (@validate_route_complete st2 Hv).
Qed.

(** *** When a turn raises *)



(** *** What [chat] answers *)

(** X17: A response either hands off or carries a reply that is not empty; a
    response that hands off carries no reply, or the marker that asks for
    the product images. *)
Theorem chat_replies_or_hands_off (W : World) (st : BotState)
    (uid message : str) :
  (Bot.needs_handoff (Bot.chat W st uid message) = false ->
     exists t, Bot.reply (Bot.chat W st uid message) = Some t /\ t <> [])
  /\ (Bot.needs_handoff (Bot.chat W st uid message) = true ->
        Bot.reply (Bot.chat W st uid message) = None
        \/ Bot.reply (Bot.chat W st uid message) = Some product_marker).
Proof.
  unfold Bot.chat, Bot.chat_body.
  destruct (Graph.invoke W st uid message) as [[result ns]|]; cbn [bind fst];
    [|cbn; split; [discriminate|auto]].
  destruct (1 <? _); cbn [andb].
  - destruct (Bot.latest_ai (messages result)) as [r|] eqn:Hl.
    + destruct (str_eqb r product_marker) eqn:Hm; cbn [andb].
      * destruct (needs_human_handoff result); cbn [andb].
        -- destruct (requirements result) as [req|]; cbn;
             [|split; [discriminate|auto]].
           destruct (timeline req); cbn; split; try discriminate; auto.
        -- unfold truthy_str, is_empty_opt.
           apply str_eqb_eq in Hm; subst r; cbn.
           split; [intros _; eexists; split; [reflexivity|discriminate]
                  | discriminate].
      * destruct (needs_human_handoff result); cbn [try_except];
          [cbn; split; [discriminate|auto]|].
        unfold truthy_str, is_empty_opt.
        destruct r as [|c r]; cbn; split; try discriminate; auto.
        intros _; eexists; split; [reflexivity|discriminate].
    + cbn [andb].
      destruct (needs_human_handoff result); cbn;
        split; try discriminate; auto.
  - destruct (needs_human_handoff result); cbn;
      split; try discriminate; auto.
Qed.

(** *** Stages between turns, and the record *)

Ltac classifier_step_now :=
  first [ left; repeat split; reflexivity
        | right; split; [first [left; reflexivity | right; reflexivity]|];
          split; [reflexivity|];
          first [left; reflexivity | right; eexists; reflexivity] ].

Lemma classifier_steps (W : World) (st : BotState) (m : str) (u : Update) :
  needs_human_handoff st = false ->
  last_human st = Some m ->
  resting st -> handoff_flagged st ->
  intent_classifier_node W st = Some u ->
  classifier_step st u.
Proof.
  intros Hf Hm Hrest Hflag.
  unfold intent_classifier_node, llm_classification, resting, handoff_flagged in *.
  rewrite Hf, Hm.
  destruct (current_stage st) as [[]|]; try contradiction;
    try (specialize (Hflag eq_refl); congruence);
    cbn [stage_is Stage.eqb existsb late_stages orb];
    destruct (llm_invoke W m) as [c|]; cbn [bind];
    split_ifs; intro H; try discriminate; injection H as <-;
    classifier_step_now.
Qed.

Lemma ask_confirmation_stage (st : BotState) (u : Update) :
  ask_confirmation_node st = Some u ->
  (u_current_stage u = Some Stage.requirement_extraction
   \/ u_current_stage u = Some Stage.awaiting_confirmation)
  /\ u_requirements u = None.
Proof.
  unfold ask_confirmation_node.
  destruct (requirements st) as [req|]; [|intro H; injection H as <-; auto].
  destruct (_ && _ && _); [intro H; injection H as <-; auto|].
  destruct (share_items (missing_fields req)); cbn; intro H;
    [injection H as <-; auto | discriminate].
Qed.

Lemma invoke_keeps_resting (W : World) (st st' : BotState)
    (uid message : str) (ns : list Graph.node) :
  Graph.invoke W st uid message = Some (st', ns) ->
  handoff_flagged st -> resting st ->
  resting st' /\ (requirements st <> None -> requirements st' <> None).
Proof.
  intros Hrun Hflag Hrest; revert Hrun; unfold Graph.invoke.
  set (st0 := Graph.receive st uid message).
  assert (R0 : resting st0) by exact Hrest.
  assert (F0 : handoff_flagged st0) by exact Hflag.
  assert (Q0 : requirements st0 = requirements st) by reflexivity.
  destruct (Graph.entry_router st0).
  { intro H; injection H as <- _; split; [exact I | intro Hn; exact Hn]. }
  destruct (intent_classifier_node W st0) as [u1|] eqn:H1; cbn [bind];
    [|discriminate].
  destruct (needs_human_handoff st0) eqn:Hf.
  { rewrite (@classifier_silent_after_handoff W st0 Hf) in H1.
    injection H1 as <-; rewrite apply_no_update.
    unfold Graph.post_intent_router; rewrite Hf, orb_true_r.
    intro H; injection H as <- _; split; [exact R0 | rewrite Q0; auto]. }
  pose proof (@classifier_steps W st0 message u1 Hf
                (last_human_receive st uid message) R0 F0 H1) as Hstep.
  set (st1 := apply_update st0 u1).
  destruct Hstep as [[Hs [Hn Hq]] | [Hs [Hn Hq]]].
  - replace (Graph.post_intent_router st1) with Graph.to_end
      by (unfold Graph.post_intent_router, st1; cbn; rewrite Hs; reflexivity).
    intro H; injection H as <- _; split.
    + unfold resting, st1; cbn; rewrite Hs; exact I.
    + unfold st1; cbn; rewrite Hq; cbn; auto.
  - replace (Graph.post_intent_router st1) with Graph.to_extract_requirements
      by (unfold Graph.post_intent_router, st1; cbn; rewrite Hn; cbn;
          change (needs_human_handoff st) with (needs_human_handoff st0);
          rewrite Hf; destruct Hs as [-> | ->]; reflexivity).
    set (st2 := apply_update st1 (requirement_extraction_node st1)).
    destruct (extraction_sets_record st1) as [req2 [E1 [E2 E3]]].
    assert (Q2 : requirements st2 = Some req2)
      by (unfold st2; cbn; rewrite E1; reflexivity).
    destruct (validation_router st2).
    + intro H.
      assert (Hp : (u3 <- validation_node W st2 ;;
                    u4 <- product_search_node W (apply_update st2 u3) ;;
                    u5 <- recommendation_node
                            (apply_update (apply_update st2 u3) u4) ;;
                    Some (apply_update (apply_update (apply_update st2 u3) u4)
                            u5))%raises = Some st').
      { destruct (validation_node W st2) as [u3|]; cbn [bind] in *;
          [|discriminate].
        destruct (product_search_node W _) as [u4|]; cbn [bind] in *;
          [|discriminate].
        destruct (recommendation_node _) as [u5|]; cbn [bind] in *;
          [|discriminate].
        injection H as <- _; reflexivity. }
      destruct (@validate_path W st2 st' Hp) as [Hr [Hst _]].
      split; [unfold resting; rewrite Hst; exact I|].
      intros _; rewrite Hr, Q2; discriminate.
    + destruct (ask_confirmation_node st2) as [u3|] eqn:H3; cbn [bind];
        [|discriminate].
      intro H; injection H as <- _.
      destruct (@ask_confirmation_stage st2 u3 H3) as [Hs3 Hq3].
      split.
      * unfold resting; cbn; destruct Hs3 as [-> | ->]; exact I.
      * intros _.
        change (requirements (apply_update st2 u3))
          with (or_old (u_requirements u3) (requirements st2)).
        rewrite Hq3, Q2; discriminate.
Qed.

Lemma reachable_resting (W : World) (st : BotState) :
  reachable W st -> resting st.
Proof.
  induction 1 as [|st st' uid message ns Hr IH Hrun]; [exact I|].
  exact (proj1 (@invoke_keeps_resting W st st' uid message ns Hrun
                  (@reachable_handoff_flagged W st Hr) IH)).
Qed.


(** X19: The graph never discards a requirement record: once a conversation
    has one, it has one after every later turn.  In particular no greeting
    resets it. *)
Theorem record_is_never_discarded (W : World) (st st' : BotState)
    (uid message : str) (ns : list Graph.node) :
  reachable W st ->
  Graph.invoke W st uid message = Some (st', ns) ->
  requirements st <> None ->
  requirements st' <> None.
Proof.
  intros Hr Hrun.
  exact (proj2 (@invoke_keeps_resting W st st' uid message ns Hrun
                  (@reachable_handoff_flagged W st Hr)
                  (@reachable_resting W st Hr))).
Qed.

(** X20: In every conversation of the graph the hand-off stage comes with the
    hand-off flag, so that a conversation at that stage gets no reply. *)
Theorem handoff_stage_has_flag (W : World) (st : BotState)
    (uid message : str) :
  reachable W st ->
  current_stage st = Some Stage.handoff ->
  needs_human_handoff st = true
  /\ Bot.reply (Bot.chat W st uid message) = None.
Proof.
  intros Hr Hs.
  pose proof (@reachable_handoff_flagged W st Hr Hs) as Hf.
  split; [exact Hf|].
  exact (proj1 (@flagged_chat_is_silent W st uid message Hf)).
Qed.

(** ** Product matcher, continued *)

Section Matcher.

Import Products.

Variables (budget_max quantity : Z) (preferences : list str).

Lemma score_product_within_budget (p : product) (f : found) :
  score_product budget_max quantity preferences p = Some (Some f) ->
  (price f <= budget_max)%Z
  /\ name f = p_name p /\ category f = p_category p
  /\ min_order f = p_min_order p.
Proof.
  unfold score_product.
  destruct (applicable_price budget_max quantity (pricing p) None)
    as [[a|]|]; cbn; try discriminate.
  destruct (budget_max <? a)%Z eqn:Hlt; [discriminate|].
  destruct (price_bonus a budget_max) as [bonus|]; cbn; [|discriminate].
  intro H; injection H as <-; cbn.
  apply Z.ltb_ge in Hlt; auto.
Qed.

(** X21: No product comes back with a price above the budget. *)
Theorem results_within_budget (rows : list row) (fs : list found) (f : found) :
  search_matching_products rows budget_max quantity preferences = Some fs ->
  In f fs -> (price f <= budget_max)%Z.
Proof.
  unfold search_matching_products.
  destruct (score_all budget_max quantity preferences (group_rows rows))
    as [l|] eqn:Hall; cbn; [|discriminate].
  intro H; injection H as <-.
  rewrite sort_desc_in; intro Hin.
  destruct (@score_all_formula budget_max quantity preferences _ _ _ Hall Hin)
    as [p [_ Hp]].
  exact (proj1 (@score_product_within_budget p f Hp)).
Qed.



End Matcher.

(** X23: With a budget of zero the search returns no product: every product
    whose price fits makes the price ratio divide by zero. *)
Theorem zero_budget_returns_nothing (rows : list Products.row) (quantity : Z)
    (preferences : list str) (fs : list Products.found) :
  Products.search_matching_products rows 0 quantity preferences = Some fs ->
  fs = [].
Proof.
  unfold Products.search_matching_products.
  destruct (Products.score_all 0 quantity preferences (Products.group_rows rows))
    as [l|] eqn:Hall; cbn; [|discriminate].
  intro H; injection H as <-.
  destruct l as [|f l]; [reflexivity|exfalso].
  destruct (@score_all_formula 0%Z quantity preferences _ _ f Hall (or_introl eq_refl))
    as [p [_ Hp]].
  destruct (@score_product_formula 0%Z quantity preferences p f Hp) as [bonus [Hb _]].
  unfold Products.price_bonus, Products.true_div in Hb; cbn in Hb; discriminate.
Qed.

(** *** Grouping the rows *)

Lemma add_row_ids (r : Products.row) (ps : list Products.product) :
  map Products.id (Products.add_row r ps)
  = if existsb (Z.eqb (Products.r_product_id r)) (map Products.id ps)
    then map Products.id ps
    else map Products.id ps ++ [Products.r_product_id r].
Proof.
  induction ps as [|p ps IH]; simpl; [reflexivity|].
  rewrite (Z.eqb_sym (Products.r_product_id r)).
  destruct (Products.id p =? Products.r_product_id r)%Z; simpl; [reflexivity|].
  rewrite IH; destruct (existsb _ _); reflexivity.
Qed.

Lemma add_row_tiers (r : Products.row) (ps : list Products.product) :
  length (flat_map Products.pricing (Products.add_row r ps))
  = S (length (flat_map Products.pricing ps)).
Proof.
  induction ps as [|p ps IH]; simpl; [reflexivity|].
  destruct (Products.id p =? Products.r_product_id r)%Z; simpl.
  - rewrite !length_app; simpl; lia.
  - rewrite !length_app, IH; lia.
Qed.

(** X24: Grouping keeps one entry per product id and loses no pricing tier. *)
Theorem grouping_keeps_every_tier (rows : list Products.row) :
  NoDup (map Products.id (Products.group_rows rows))
  /\ length (flat_map Products.pricing (Products.group_rows rows))
     = length rows
  /\ (forall i, In i (map Products.id (Products.group_rows rows))
                <-> In i (map Products.r_product_id rows)).
Proof.
  unfold Products.group_rows.
  assert (G : forall ps,
             NoDup (map Products.id ps) ->
             let res := fold_left (fun ps r => Products.add_row r ps) rows ps in
             NoDup (map Products.id res)
             /\ length (flat_map Products.pricing res)
                = length (flat_map Products.pricing ps) + length rows
             /\ (forall i, In i (map Products.id res)
                           <-> In i (map Products.id ps)
                               \/ In i (map Products.r_product_id rows))).
  { induction rows as [|r rows IH]; intros ps Hnd; simpl.
    - split; [exact Hnd|]; split; [lia|tauto].
    - assert (Hnd' : NoDup (map Products.id (Products.add_row r ps))).
      { rewrite add_row_ids.
        destruct (existsb _ _) eqn:E; [exact Hnd|].
        apply NoDup_app; [exact Hnd | constructor; [intros []|constructor] |].
        intros i Hi [<-|[]].
        assert (existsb (Z.eqb (Products.r_product_id r)) (map Products.id ps) = true).
        { apply existsb_exists; eexists; split; [exact Hi | apply Z.eqb_refl]. }
        congruence. }
      destruct (IH _ Hnd') as [H1 [H2 H3]].
      split; [exact H1|]; split.
      + rewrite H2, add_row_tiers; lia.
      + intro i; rewrite H3, add_row_ids.
        destruct (existsb _ _) eqn:E.
        * apply existsb_exists in E; destruct E as [j [Hj Ej]].
          apply Z.eqb_eq in Ej; subst j. intuition (subst; auto).
        * rewrite in_app_iff; simpl; intuition. }
  destruct (G [] (NoDup_nil _)) as [H1 [H2 H3]].
  split; [exact H1|]; split; [exact H2|].
  intro i; rewrite H3; simpl; tauto.
Qed.

(** ** Nodes outside the graph *)

Import LateNodes.



(** X27: The order confirmation raises exactly when a product is selected and
    the record has no quantity; otherwise it sends one message and moves
    to hand-off, and it sets the hand-off flag only when the product or
    the record is missing. *)
Theorem order_confirmation_outcomes (st : BotState) :
  (order_confirmation_node st = None <->
     exists product req,
       selected_product st = Some product /\ requirements st = Some req
       /\ quantity req = None)
  /\ (forall u, order_confirmation_node st = Some u ->
        u_current_stage u = Some Stage.handoff
        /\ (exists c, u_messages u = [AIMessage c])
        /\ (u_needs_human_handoff u = Some true <->
              selected_product st = None \/ requirements st = None)).
Proof.
  unfold order_confirmation_node.
  destruct (selected_product st) as [product|] eqn:Hp,
    (requirements st) as [req|] eqn:Hr.
  - destruct (quantity req) as [q|] eqn:Hq; cbn [bind]; split.
    + split; [discriminate|].
      intros [p' [r' [_ [E H]]]]; injection E as <-; congruence.
    + intros u H; injection H as <-; cbn.
      split; [reflexivity|]; split; [eauto|].
      split; [discriminate | intros [H|H]; discriminate].
    + split; [intros _; exists product, req; auto | reflexivity].
    + discriminate.
  - split;
      [split; [discriminate | intros [? [? [_ [H _]]]]; discriminate]|].
    intros u H; injection H as <-; cbn.
    split; [reflexivity|]; split; [eauto|]; split; auto.
  - split;
      [split; [discriminate | intros [? [? [H _]]]; discriminate]|].
    intros u H; injection H as <-; cbn.
    split; [reflexivity|]; split; [eauto|]; split; auto.
  - split;
      [split; [discriminate | intros [? [? [H _]]]; discriminate]|].
    intros u H; injection H as <-; cbn.
    split; [reflexivity|]; split; [eauto|]; split; auto.
Qed.

(** ** The HTTP wrapper *)

Lemma str_eqb_same (a : str) : str_eqb a a = true.
Proof. unfold str_eqb; destruct (list_eq_dec ascii_dec a a); congruence. Qed.

Lemma str_eqb_neq (a b : str) : a <> b -> str_eqb a b = false.
Proof. unfold str_eqb; destruct (list_eq_dec ascii_dec a b); congruence. Qed.

Lemma lookup_assign (u u' : str) (info : Api.lock_info) (L : Api.locks) :
  Api.lookup u' (Api.assign u info L)
  = if str_eqb u u' then Some info else Api.lookup u' L.
Proof.
  induction L as [|[v i] L IH]; simpl.
  - destruct (str_eqb u u'); reflexivity.
  - destruct (str_eqb v u) eqn:E; simpl.
    + apply str_eqb_eq in E; subst v.
      destruct (str_eqb u u'); reflexivity.
    + rewrite IH. destruct (str_eqb v u') eqn:E'; [|reflexivity].
      apply str_eqb_eq in E'; subst u'.
      rewrite str_eqb_neq; [reflexivity|].
      intro; subst; rewrite str_eqb_same in E; discriminate.
Qed.

(** X28: Locking a conversation silences the bot for that customer, whatever
    the message and the state, and for no other customer. *)
Theorem lock_silences_one_customer (L : Api.locks) (W : World)
    (st : BotState) (user_id now_iso other message : str) :
  let L' := Api.lock_conversation L user_id now_iso in
  Api.locked (Api.chat L' W st user_id message) = true
  /\ Api.reply (Api.chat L' W st user_id message) = None
  /\ Api.needs_handoff (Api.chat L' W st user_id message) = false
  /\ option_map Api.locked_at (Api.lock (Api.chat L' W st user_id message))
     = Some now_iso
  /\ (other <> user_id ->
        Api.chat L' W st other message = Api.chat L W st other message).
Proof.
  cbv zeta; unfold Api.chat, Api.lock_conversation.
  rewrite !lookup_assign, str_eqb_same; cbn.
  repeat split.
  intro Hne; rewrite str_eqb_neq by congruence; reflexivity.
Qed.

Lemma lookup_not_in (u : str) (L : Api.locks) :
  Api.lookup u L = None <-> ~ In u (map fst L).
Proof.
  induction L as [|[v i] L IH]; simpl; [tauto|].
  destruct (str_eqb v u) eqn:E.
  - apply str_eqb_eq in E; subst; split; [discriminate|tauto].
  - rewrite IH; split; [intros H [->|H']; [rewrite str_eqb_same in E; discriminate|tauto]|tauto].
Qed.

Lemma lookup_remove (u u' : str) (L : Api.locks) :
  NoDup (map fst L) ->
  Api.lookup u' (Api.remove u L)
  = if str_eqb u u' then None else Api.lookup u' L.
Proof.
  induction L as [|[v i] L IH]; simpl; intro Hnd.
  - destruct (str_eqb u u'); reflexivity.
  - inversion Hnd as [|? ? Hnin Hnd']; subst.
    destruct (str_eqb v u) eqn:E; simpl.
    + apply str_eqb_eq in E; subst v.
      destruct (str_eqb u u') eqn:E'; [|reflexivity].
      apply str_eqb_eq in E'; subst u'. apply lookup_not_in; exact Hnin.
    + rewrite (IH Hnd').
      destruct (str_eqb v u') eqn:E1; [|reflexivity].
      apply str_eqb_eq in E1; subst v.
      rewrite str_eqb_neq; [reflexivity|].
      intro; subst; rewrite str_eqb_same in E; discriminate.
Qed.

Lemma assign_keys (u : str) (info : Api.lock_info) (L : Api.locks) :
  NoDup (map fst L) -> NoDup (map fst (Api.assign u info L)).
Proof.
  induction L as [|[v i] L IH]; simpl; intro Hnd.
  - constructor; [intros []|constructor].
  - inversion Hnd as [|? ? Hnin Hnd']; subst.
    destruct (str_eqb v u) eqn:E; simpl; [exact Hnd|].
    constructor; [|exact (IH Hnd')].
    intro Hin. apply lookup_not_in in Hnin.
    assert (H : Api.lookup v (Api.assign u info L) <> None)
      by (intro H0; apply lookup_not_in in H0; tauto).
    rewrite lookup_assign, Hnin in H.
    destruct (str_eqb u v) eqn:E2; [|congruence].
    apply str_eqb_eq in E2; subst; rewrite str_eqb_same in E; discriminate.
Qed.

Lemma remove_assign_fresh (u : str) (info : Api.lock_info) (L : Api.locks) :
  Api.lookup u L = None -> Api.remove u (Api.assign u info L) = L.
Proof.
  induction L as [|[v i] L IH]; simpl.
  - rewrite str_eqb_same; reflexivity.
  - destruct (str_eqb v u) eqn:E; [discriminate|].
    intro H; simpl; rewrite E, (IH H); reflexivity.
Qed.

(** X29: Unlocking hands the customer back to the bot and touches no other
    customer; unlocking a customer who is not locked changes nothing; and
    a lock followed by an unlock leaves the dictionary as it was. *)
Theorem unlock_restores_the_bot (L : Api.locks) (user_id : str) :
  NoDup (map fst L) ->
  (forall W st message,
     Api.chat (fst (Api.unlock_conversation L user_id)) W st user_id message
     = Api.chat [] W st user_id message)
  /\ (forall other, other <> user_id ->
        Api.lookup other (fst (Api.unlock_conversation L user_id))
        = Api.lookup other L)
  /\ (Api.lookup user_id L = None ->
        Api.unlock_conversation L user_id = (L, Api.not_locked))
  /\ (forall now_iso, Api.lookup user_id L = None ->
        Api.unlock_conversation (Api.lock_conversation L user_id now_iso)
          user_id
        = (L, Api.unlocked now_iso)).
Proof.
  intro Hnd; unfold Api.unlock_conversation.
  repeat split.
  - intros W st message; unfold Api.chat.
    destruct (Api.lookup user_id L) as [info|] eqn:E; cbn [fst].
    + rewrite (@lookup_remove user_id user_id L Hnd), str_eqb_same; reflexivity.
    + rewrite E; reflexivity.
  - intros other Hne.
    destruct (Api.lookup user_id L) as [info|]; cbn [fst]; [|reflexivity].
    rewrite (@lookup_remove user_id other L Hnd), str_eqb_neq by congruence;
      reflexivity.
  - intros ->; reflexivity.
  - intros now_iso E; unfold Api.lock_conversation.
    rewrite lookup_assign, str_eqb_same; cbn [Api.locked_at].
    rewrite (@remove_assign_fresh user_id _ L E).
    reflexivity.
Qed.

(** ** Timeline resolver *)

(** X30: whatever the clock and the timeline text, and whichever of the
    three branches answers (the keyword table, the date parser, the
    default), an order marked as rush is due within seven days and an
    order that is not is due in five days or more. *)
Theorem rush_means_within_a_week (C : Clock) (timeline : str) :
  (Timeline.is_rush_order (Timeline.calculate_timeline_urgency C timeline)
   = true ->
   (Timeline.days_remaining (Timeline.calculate_timeline_urgency C timeline)
    <= 7)%Z)
  /\ (Timeline.is_rush_order (Timeline.calculate_timeline_urgency C timeline)
      = false ->
      (5 <= Timeline.days_remaining
              (Timeline.calculate_timeline_urgency C timeline))%Z).
Proof.
  unfold Timeline.calculate_timeline_urgency.
  destruct (Timeline.config_lookup Timeline.timeline_config (lower timeline))
    as [[days urgency]|] eqn:E.
  - unfold Timeline.timeline_config in E; cbn [Timeline.config_lookup] in E.
    repeat match type of E with
           | (if ?b then _ else _) = _ => destruct b
           end;
      try discriminate; injection E as <- <-; cbn; split; intro; lia || discriminate.
  - unfold try_except, Timeline.parse_branch.
    destruct (replace_year C (now C) (dt_year C (now C))) as [d|];
      cbn [bind]; [|cbn; split; intro; lia || discriminate].
    destruct (parse C timeline d) as [p|];
      cbn [bind]; [|cbn; split; intro; lia || discriminate].
    destruct (if dt_ltb C p (now C)
              then replace_year C p (dt_year C (now C) + 1)
              else Some p) as [p'|];
      cbn [bind]; [|cbn; split; intro; lia || discriminate].
    unfold Timeline.urgency_of_days.
    destruct (sub_days C p' (now C) <=? 2)%Z eqn:E2;
      [cbn; split; intro; [lia | discriminate]|].
    destruct (sub_days C p' (now C) <=? 7)%Z eqn:E7;
      [cbn; split; intro; [lia | discriminate]|].
    destruct (sub_days C p' (now C) <=? 14)%Z eqn:E14;
      cbn; split; intro; lia || discriminate.
Qed.

(** * Concrete runs of the further properties *)


Lemma extracted_numbers_not_negative_witness : (0 <= 50)%Z.
Proof.
  apply (proj1 (@extracted_numbers_not_negative (s2l "50 pieces")) 50%Z).
  vm_compute; reflexivity.
Defined.

Lemma empty_reply_confirms_witness :
  requirements (Cases.state_after Demo.world Cases.awaiting (s2l "no"))
  = Some (set_needs_confirmation false Cases.awaiting_record)
  /\ current_stage (Cases.state_after Demo.world Cases.awaiting (s2l "no"))
     = Some Stage.handoff.
Proof.
  apply (proj2 (@empty_reply_confirms Demo.world Cases.awaiting
                  (Cases.state_after Demo.world Cases.awaiting (s2l "no"))
                  Cases.awaiting_record (s2l "user") (s2l "no")
                  [Graph.n_classify_intent; Graph.n_extract_requirements;
                   Graph.n_validate; Graph.n_search_products;
                   Graph.n_recommend]
                  50%Z 100%Z (s2l "00" ++ nl :: s2l "feb") (s2l "Chennai")
                  ltac:(vm_compute; reflexivity) ltac:(vm_compute; reflexivity)
                  ltac:(vm_compute; reflexivity) ltac:(vm_compute; reflexivity)
                  ltac:(vm_compute; reflexivity) ltac:(vm_compute; reflexivity)
                  ltac:(vm_compute; reflexivity) ltac:(vm_compute; reflexivity)
                  ltac:(vm_compute; reflexivity) ltac:(vm_compute; reflexivity)
                  ltac:(vm_compute; reflexivity) ltac:(vm_compute; reflexivity)
                  ltac:(vm_compute; reflexivity))).
Defined.

Lemma confirmation_means_two_positional_witness :
  keyword_quantity (lower Demo.ambiguous_numbers) = None
  /\ keyword_budget (lower Demo.ambiguous_numbers) = None
  /\ exists n0 n1 rest,
       non_date_numbers Demo.ambiguous_numbers
         (snd (step_timeline (lower Demo.ambiguous_numbers)))
       = n0 :: n1 :: rest
       /\ quantity (extract_customer_requirements Demo.ambiguous_numbers)
          = Some n0
       /\ budget_per_piece (extract_customer_requirements Demo.ambiguous_numbers)
          = Some n1.
Proof.
  apply (@confirmation_means_two_positional Demo.ambiguous_numbers).
  vm_compute; reflexivity.
Defined.

Lemma keyword_value_is_kept_witness :
  quantity (extract_customer_requirements (s2l "100 for 50 pieces")) = Some 50%Z
  /\ needs_confirmation (extract_customer_requirements (s2l "100 for 50 pieces"))
     = false.
Proof.
  apply (proj1 (@keyword_value_is_kept (s2l "100 for 50 pieces")) 50%Z).
  vm_compute; reflexivity.
Defined.

Lemma keyword_timeline_is_canonical_witness :
  exists days urgency,
    Timeline.config_lookup Timeline.timeline_config (lower (s2l "next_week"))
    = Some (days, urgency)
    /\ forall C : Clock,
         Timeline.days_remaining
           (Timeline.calculate_timeline_urgency C (s2l "next_week")) = days
         /\ Timeline.urgency_level
              (Timeline.calculate_timeline_urgency C (s2l "next_week"))
            = urgency.
Proof.
  apply (@keyword_timeline_is_canonical (s2l "Need them next week")
           (s2l "next_week")); vm_compute; reflexivity.
Defined.

Lemma gazetteer_city_is_location_witness :
  location (extract_customer_requirements (s2l "Deliver to BENGALURU please"))
  = Some (s2l "Bangalore").
Proof.
  apply (proj1 (@gazetteer_city_is_location
                  (s2l "Deliver to BENGALURU please") (s2l "Bangalore")
                  eq_refl)).
Defined.

Lemma merge_with_same_values_witness :
  smart_merge Cases.awaiting_record
    (set_needs_confirmation false Cases.awaiting_record) (s2l "qty 50")
  = set_needs_confirmation false Cases.awaiting_record.
Proof.
  apply (@merge_with_same_values Cases.awaiting_record
           (set_needs_confirmation false Cases.awaiting_record) (s2l "qty 50"));
    reflexivity.
Defined.

Lemma filled_fields_stay_filled_witness :
  exists req',
    requirements_after (Demo.quantity_only_state (s2l "Salem"))
    = Some req'
    /\ quantity req' <> None.
Proof.
  destruct (@filled_fields_stay_filled (Demo.quantity_only_state (s2l "Salem"))
              Demo.quantity_only eq_refl) as [req' [Ha [Hq _]]].
  exists req'; split; [exact Ha|].
  apply Hq; discriminate.
Defined.

Lemma turn_extends_history_witness :
  messages Cases.greeted
  = messages new_conversation ++ [HumanMessage (s2l "Hi")]
  \/ exists c,
       messages Cases.greeted
       = messages new_conversation ++ [HumanMessage (s2l "Hi"); AIMessage c].
Proof.
  apply (@turn_extends_history Demo.world new_conversation Cases.greeted
           (s2l "user") (s2l "Hi") [Graph.n_greeting]).
  vm_compute; reflexivity.
Defined.

Lemma handoff_is_permanent_witness :
  Bot.reply (Bot.chat Demo.world Demo.handed_off (s2l "user") (s2l "hello"))
  = None
  /\ Bot.needs_handoff
       (Bot.chat Demo.world Demo.handed_off (s2l "user") (s2l "hello"))
     = true.
Proof.
  apply (proj2 (@handoff_is_permanent Demo.world Demo.handed_off (s2l "user")
                  (s2l "hello") eq_refl)).
Defined.

Lemma greeted_once_witness :
  ~ In Graph.n_greeting
      [Graph.n_classify_intent; Graph.n_extract_requirements;
       Graph.n_ask_confirmation]
  /\ has_greeted Cases.awaiting = true.
Proof.
  apply (@greeted_once Demo.world Cases.greeted Cases.awaiting (s2l "user")
           Demo.ambiguous_numbers
           [Graph.n_classify_intent; Graph.n_extract_requirements;
            Graph.n_ask_confirmation]);
    vm_compute; reflexivity.
Defined.

Lemma ask_confirmation_has_a_question_witness :
  exists u,
    ask_confirmation_node (Demo.quantity_only_state (s2l "500")) = Some u
    /\ (u_messages u = [] ->
        requirements (Demo.quantity_only_state (s2l "500")) = None).
Proof.
  apply (@ask_confirmation_has_a_question (Demo.quantity_only_state (s2l "500"))).
  vm_compute; reflexivity.
Defined.

Lemma search_needs_complete_record_witness :
  current_stage Cases.shown = Some Stage.handoff
  /\ needs_human_handoff Cases.shown = true
  /\ (handoff_reason Cases.shown = Some (s2l "no_products")
      \/ handoff_reason Cases.shown = Some (s2l "products_shown")).
Proof.
  apply (proj2 (@search_needs_complete_record Demo.world Cases.greeted
                  Cases.shown (s2l "user") Demo.anchored_message
                  [Graph.n_classify_intent; Graph.n_extract_requirements;
                   Graph.n_validate; Graph.n_search_products;
                   Graph.n_recommend]
                  ltac:(vm_compute; reflexivity)
                  ltac:(simpl; tauto))).
Defined.


Lemma chat_replies_or_hands_off_witness :
  exists t,
    Bot.reply (Bot.chat Demo.world new_conversation (s2l "user") (s2l "Hi"))
    = Some t /\ t <> [].
Proof.
  apply (proj1 (@chat_replies_or_hands_off Demo.world new_conversation
                  (s2l "user") (s2l "Hi"))).
  vm_compute; reflexivity.
Defined.


Lemma record_is_never_discarded_witness :
  requirements (Cases.state_after Demo.world Cases.awaiting (s2l "hello"))
  <> None.
Proof.
  apply (@record_is_never_discarded Demo.world Cases.awaiting
           (Cases.state_after Demo.world Cases.awaiting (s2l "hello"))
           (s2l "user") (s2l "hello")
           [Graph.n_classify_intent; Graph.n_extract_requirements;
            Graph.n_validate; Graph.n_search_products; Graph.n_recommend]);
    [ | vm_compute; reflexivity | vm_compute; discriminate].
  apply (@reach_turn Demo.world Cases.greeted Cases.awaiting (s2l "user")
           Demo.ambiguous_numbers
           [Graph.n_classify_intent; Graph.n_extract_requirements;
            Graph.n_ask_confirmation]);
    [|vm_compute; reflexivity].
  apply (@reach_turn Demo.world new_conversation Cases.greeted (s2l "user")
           (s2l "Hi") [Graph.n_greeting] (reach_new Demo.world)).
  vm_compute; reflexivity.
Defined.

Lemma handoff_stage_has_flag_witness :
  needs_human_handoff Cases.shown = true
  /\ Bot.reply (Bot.chat Demo.world Cases.shown (s2l "user") (s2l "Hi")) = None.
Proof.
  apply (@handoff_stage_has_flag Demo.world Cases.shown (s2l "user")
           (s2l "Hi"));
    [|vm_compute; reflexivity].
  apply (@reach_turn Demo.world Cases.greeted Cases.shown (s2l "user")
           Demo.anchored_message
           [Graph.n_classify_intent; Graph.n_extract_requirements;
            Graph.n_validate; Graph.n_search_products; Graph.n_recommend]);
    [|vm_compute; reflexivity].
  apply (@reach_turn Demo.world new_conversation Cases.greeted (s2l "user")
           (s2l "Hi") [Graph.n_greeting] (reach_new Demo.world)).
  vm_compute; reflexivity.
Defined.

Lemma results_within_budget_witness :
  (Products.price
     {| Products.name := s2l "Gift box"; Products.price := 1;
        Products.category := s2l "Eco-Friendly"; Products.min_order := 1;
        Products.image_url := []; Products.relevance_score := 118 |}
   <= 16)%Z.
Proof.
  apply (@results_within_budget 16 10 [] [Demo.box]
           [ {| Products.name := s2l "Gift box"; Products.price := 1;
                Products.category := s2l "Eco-Friendly";
                Products.min_order := 1; Products.image_url := [];
                Products.relevance_score := 118 |} ]);
    [vm_compute; reflexivity | left; reflexivity].
Defined.


Lemma zero_budget_returns_nothing_witness : @nil Products.found = [].
Proof.
  apply (@zero_budget_returns_nothing [Demo.box] 10 [] []).
  vm_compute; reflexivity.
Defined.



Lemma order_confirmation_outcomes_witness :
  order_confirmation_node (Cases.choosing (s2l "1")) = None <->
  exists product req,
    selected_product (Cases.choosing (s2l "1")) = Some product
    /\ requirements (Cases.choosing (s2l "1")) = Some req
    /\ quantity req = None.
Proof.
  exact (proj1 (@order_confirmation_outcomes (Cases.choosing (s2l "1")))).
Defined.

Lemma lock_silences_one_customer_witness :
  Api.reply (Api.chat Cases.one_lock Demo.world new_conversation
               (s2l "919800000001") (s2l "Hi")) = None.
Proof.
  apply (proj1 (proj2 (@lock_silences_one_customer [] Demo.world
                         new_conversation (s2l "919800000001")
                         (s2l "2026-01-05T10:00:00") (s2l "919800000002")
                         (s2l "Hi")))).
Defined.

Lemma unlock_restores_the_bot_witness :
  Api.unlock_conversation Cases.one_lock (s2l "919800000001")
  = ([], Api.unlocked (s2l "2026-01-05T10:00:00")).
Proof.
  apply (proj2 (proj2 (proj2 (@unlock_restores_the_bot []
                                (s2l "919800000001") (NoDup_nil _))))
           (s2l "2026-01-05T10:00:00") eq_refl).
Defined.

Lemma rush_means_within_a_week_witness :
  (Timeline.days_remaining
     (Timeline.calculate_timeline_urgency Demo.day_clock (s2l "ASAP")) <= 7)%Z.
Proof.
  apply (proj1 (@rush_means_within_a_week Demo.day_clock (s2l "ASAP"))).
  vm_compute; reflexivity.
Defined.
